(** * Fraud scoring engine: rule-based scorers, aggregator and batch coordinator

    A shallow embedding of
      - [agents/workflow_agents/base_agents.py]: [FraudAmountDetectionAgent],
        [FraudPatternDetectionAgent], [FraudGeographicRiskAgent], [FraudAggAgent];
      - [agents/parallelization.py]: [ParallelizationPattern];
      - [agents/evaluator_optimizer.py]: [EvaluatorOptimizerPattern], with the
        answers of the correction agent as an input;
      - [main.py]: the high-value filter of [SWIFTProcessingSystem].

    Modelling choices.
      - A message is a Python dict with string keys: a [gmap string pyval].
        Field values are the values the pipeline produces: a string or [None].
      - Python strings are modelled as [string]; characters are looked at
        through their ASCII class only (digits ['0'..'9'], letters
        ['a'..'z'] and ['A'..'Z']), every other character is neither a digit
        nor cased.
      - Python floats are modelled by exact rationals [Q]: scores, amounts,
        averages.  [round] is round-half-to-even on the exact value.
      - Statements of the source that can raise are modelled in a small
        state-and-exception monad: the state is the pair of local variables
        [risk_score], [fraud_reasons], and it survives a raised exception,
        as Python locals do when the exception is caught by [try/except]. *)

From Stdlib Require Import QArith Qround Lqa ZArith Ascii String.
From stdpp Require Import gmap strings list pretty.

Local Open Scope string_scope.

(** ** Python values, exceptions, dict access *)

Inductive pyval : Type :=
  | PNone
  | PStr (s : string).

#[global] Instance pyval_eq_dec : EqDecision pyval.
Proof. solve_decision. Defined.

Inductive pyexn : Type :=
  | ValueError
  | TypeError
  | AttributeError
  | IndexError
  | KeyError
  | TimeoutError.

#[global] Instance pyexn_eq_dec : EqDecision pyexn.
Proof. solve_decision. Defined.

(** Outcome of a call: a returned value or a propagated exception. *)
Inductive py (A : Type) : Type :=
  | Ret (a : A)
  | Raise (e : pyexn).
Arguments Ret {A} a.
Arguments Raise {A} e.

Abbreviation Message := (gmap string pyval).

(** [d.get(key, dflt)] *)
Definition dict_get (d : Message) (key : string) (dflt : pyval) : pyval :=
  default dflt (d !! key).

(** ** Python string operations used by the scorers *)

Module PyStr.

Definition code (c : ascii) : N := N_of_ascii c.

(** [c.isdigit()] *)
Definition isdigit (c : ascii) : bool :=
  (48 <=? code c)%N && (code c <=? 57)%N.

Definition is_lower (c : ascii) : bool :=
  (97 <=? code c)%N && (code c <=? 122)%N.

Definition is_upper (c : ascii) : bool :=
  (65 <=? code c)%N && (code c <=? 90)%N.

Definition upper_char (c : ascii) : ascii :=
  if is_lower c then ascii_of_N (code c - 32) else c.

Definition lower_char (c : ascii) : ascii :=
  if is_upper c then ascii_of_N (code c + 32) else c.

Fixpoint map_chars (f : ascii -> ascii) (s : string) : string :=
  match s with
  | EmptyString => EmptyString
  | String c s' => String (f c) (map_chars f s')
  end.

(** [s.upper()], [s.lower()] *)
Definition upper (s : string) : string := map_chars upper_char s.
Definition lower (s : string) : string := map_chars lower_char s.

(** [''.join(c for c in s if keep(c))] *)
Fixpoint join_filter (keep : ascii -> bool) (s : string) : string :=
  match s with
  | EmptyString => EmptyString
  | String c s' =>
      if keep c then String c (join_filter keep s') else join_filter keep s'
  end.

(** [p in s]: [p] occurs in [s] as a contiguous substring. *)
Fixpoint contains (p s : string) : bool :=
  match s with
  | EmptyString => String.prefix p EmptyString
  | String _ s' => String.prefix p s || contains p s'
  end.

(** [s[lo:hi]] for [0 <= lo <= hi]. *)
Definition slice (lo hi : nat) (s : string) : string :=
  String.substring lo (hi - lo) s.

(** [bool(s)]: a string is truthy when it is not empty. *)
Definition truthy (s : string) : bool :=
  match s with EmptyString => false | _ => true end.

Definition is_point (c : ascii) : bool := Ascii.eqb c ".".

(** Value of a string of decimal digits, most significant first; [None]
    when a character is not a digit. *)
Fixpoint digits_value (s : string) (acc : N) : option N :=
  match s with
  | EmptyString => Some acc
  | String c s' =>
      if isdigit c then digits_value s' (acc * 10 + (code c - 48))%N else None
  end.

(** Splits at the first decimal point: the part before it and, when there
    is a point, the part after it. *)
Fixpoint split_point (s : string) : string * option string :=
  match s with
  | EmptyString => (EmptyString, None)
  | String c s' =>
      if is_point c then (EmptyString, Some s')
      else let '(ip, fp) := split_point s' in (String c ip, fp)
  end.

(** [float(s)] on a string made of digits and decimal points, which is what
    the amount scorer passes: the literal is accepted when it has at most
    one point and at least one digit ("12", "12.", ".5", "12.5"); anything
    else is a [ValueError], here [None]. *)
Definition float (s : string) : option Q :=
  let '(ip, fp) := split_point s in
  let fs := default EmptyString fp in
  match digits_value ip 0, digits_value fs 0 with
  | Some i, Some f =>
      if (String.length ip + String.length fs =? 0)%nat then None
      else
        let scale := (10 ^ Z.of_nat (String.length fs))%Z in
        Some (Qmake (Z.of_N i * scale + Z.of_N f) (Z.to_pos scale))
  | _, _ => None
  end.

Definition digit_char (d : Z) : ascii := ascii_of_N (48 + Z.to_N d).

(** Digits of the expansion of [r], [0 <= r < 1], until it terminates. *)
Fixpoint frac_digits (fuel : nat) (r : Q) : string :=
  match fuel with
  | O => EmptyString
  | S fuel' =>
      if Qeq_bool r 0 then EmptyString
      else
        let d := Qfloor (r * 10) in
        String (digit_char d) (frac_digits fuel' (r * 10 - inject_Z d))
  end.

(** [f"{x}"] for a non-negative float [x] read from a decimal literal of
    at most 16 significant digits, where the shortest representation that
    Python prints is the literal's value: integer part, point, fractional
    digits without trailing zeros and at least one of them ("15000.0",
    "1234.56"). *)
Definition format_float (x : Q) : string :=
  let ip := Qfloor x in
  let fd := frac_digits 17 (x - inject_Z ip) in
  pretty ip ++ "." ++ (if truthy fd then fd else "0").

End PyStr.

(** ** Float operations *)

(** [a > b] *)
Definition Qgt_bool (a b : Q) : bool := negb (Qle_bool a b).

(** [x % m] for a positive modulus. *)
Definition py_mod (x m : Q) : Q := x - m * inject_Z (Qfloor (x / m)).

(** [min(a, b)]: the first argument unless the second is smaller. *)
Definition py_min (a b : Q) : Q := if Qgt_bool a b then b else a.

(** Nearest integer, ties to the even one. *)
Definition round_half_even (x : Q) : Z :=
  let f := Qfloor x in
  match Qcompare (x - inject_Z f) (1 # 2) with
  | Lt => f
  | Gt => (f + 1)%Z
  | Eq => if Z.even f then f else (f + 1)%Z
  end.

(** [round(x, ndigits)] *)
Definition py_round (x : Q) (ndigits : nat) : Q :=
  let scale := inject_Z (10 ^ Z.of_nat ndigits) in
  inject_Z (round_half_even (x * scale)) / scale.

(** ** Results of the scorers *)

(** The dict a scorer returns ([agent], [risk_score], [fraud_reasons]), with
    the two keys [_process_message] may add: [message_id] on success, [error]
    on failure. *)
Record ScoreResult : Type := {
  agent : string;
  risk_score : Q;
  fraud_reasons : list string;
  message_id : option pyval;
  error : option pyexn
}.

Definition score_dict (name : string) (score : Q) (reasons : list string)
  : ScoreResult :=
  {| agent := name; risk_score := score; fraud_reasons := reasons;
     message_id := None; error := None |}.

(** ** The monad of a scorer body *)

(** The two locals every [analyze] mutates. *)
Record locals : Type := {
  l_risk_score : Q;
  l_fraud_reasons : list string
}.

Definition init_locals : locals :=
  {| l_risk_score := 0; l_fraud_reasons := [] |}.

Definition Body (A : Type) : Type := locals -> (pyexn + A) * locals.

Definition bret {A} (a : A) : Body A := fun st => (inr a, st).

Definition braise {A} (e : pyexn) : Body A := fun st => (inl e, st).

Definition bbind {A B} (m : Body A) (k : A -> Body B) : Body B :=
  fun st =>
    match m st with
    | (inl e, st') => (inl e, st')
    | (inr a, st') => k a st'
    end.

Notation "x <- m ;; k" := (bbind m (fun x => k))
  (at level 100, m at next level, right associativity).
Notation "m ;;; k" := (bbind m (fun _ => k))
  (at level 100, right associativity).

(** [risk_score += w; fraud_reasons.append(reason)] *)
Definition flag (w : Q) (reason : string) : Body unit :=
  fun st =>
    (inr tt, {| l_risk_score := l_risk_score st + w;
                l_fraud_reasons := (l_fraud_reasons st ++ [reason])%list |}).

(** [if cond: body] *)
Definition when (cond : bool) (body : Body unit) : Body unit :=
  if cond then body else bret tt.

(** [for x in xs: body(x)] *)
Fixpoint for_each {A} (xs : list A) (body : A -> Body unit) : Body unit :=
  match xs with
  | [] => bret tt
  | x :: xs' => body x ;;; for_each xs' body
  end.

(** [try: body  except (handled...): print(...)] *)
Definition try_except (handled : pyexn -> bool) (body : Body unit)
  : Body unit :=
  fun st =>
    match body st with
    | (inl e, st') => if handled e then (inr tt, st') else (inl e, st')
    | r => r
    end.

(** Runs a scorer body from fresh locals and builds the returned dict:
    [{"agent": name, "risk_score": min(risk_score, 1.0), "fraud_reasons": ...}]. *)
Definition run_analyze (name : string) (body : Body unit) : py ScoreResult :=
  match body init_locals with
  | (inl e, _) => Raise e
  | (inr _, st) =>
      Ret (score_dict name (py_min (l_risk_score st) 1) (l_fraud_reasons st))
  end.

(** Iterating over a value ([for c in v]): a string yields itself, [None]
    is not iterable. *)
Definition iter_str (v : pyval) : Body string :=
  match v with
  | PStr s => bret s
  | PNone => braise TypeError
  end.

(** Calling a string method on a value ([v.upper()]): [None] has none. *)
Definition str_method (f : string -> string) (v : pyval) : Body string :=
  match v with
  | PStr s => bret (f s)
  | PNone => braise AttributeError
  end.

(** [len(v)] guarding a use of the string. *)
Definition str_len (v : pyval) : Body nat :=
  match v with
  | PStr s => bret (String.length s)
  | PNone => braise TypeError
  end.

(** ** FraudAmountDetectionAgent *)

Module FraudAmountDetectionAgent.

Definition name : string := "FraudAmountDetectionAgent".

Definition body (message : Message) : Body unit :=
  try_except
    (fun e => bool_decide (e = ValueError) || bool_decide (e = TypeError))
    (amount_str <- iter_str (dict_get message "amount" (PStr "0")) ;;
     amount <-
       match PyStr.float
               (PyStr.join_filter
                  (fun c => PyStr.isdigit c || PyStr.is_point c) amount_str)
       with
       | Some x => bret x
       | None => braise ValueError
       end ;;
     when (Qgt_bool amount 10000)
       (flag 0.3 ("High amount transaction: " ++ PyStr.format_float amount)) ;;;
     when (Qeq_bool (py_mod amount 1000) 0 && Qgt_bool amount 0)
       (flag 0.2 ("Suspiciously round amount: " ++ PyStr.format_float amount)) ;;;
     when (Qgt_bool amount 100000 && negb (Qeq_bool (py_mod amount 1) 0))
       (flag 0.1 "Large amount with unusual decimal precision")).

Definition analyze (message : Message) : py ScoreResult :=
  run_analyze name (body message).

End FraudAmountDetectionAgent.

(** [bool(v)] *)
Definition truthy (v : pyval) : bool :=
  match v with
  | PNone => false
  | PStr s => PyStr.truthy s
  end.

(** [a or b] *)
Definition py_or (a b : pyval) : pyval := if truthy a then a else b.

(** ** FraudPatternDetectionAgent *)

Module FraudPatternDetectionAgent.

Definition name : string := "FraudPatternDetectionAgent".

Definition high_risk_patterns : list string :=
  ["TEST"; "FAKE"; "DEMO"; "999"; "000000"].

Definition suspicious_keywords : list string :=
  ["urgent"; "immediately"; "secret"; "confidential"].

Definition bic_reason (pattern : string) : string :=
  "Test/fake pattern detected in BIC: " ++ pattern.

Definition keyword_reason (keyword : string) : string :=
  "Suspicious keyword in remittance: " ++ keyword.

(** [pattern in sender_bic.upper() or pattern in receiver_bic.upper()]:
    the receiver is only looked at when the sender does not match. *)
Definition bic_matches (pattern : string) (sender_bic receiver_bic : pyval)
  : Body bool :=
  su <- str_method PyStr.upper sender_bic ;;
  if PyStr.contains pattern su then bret true
  else (ru <- str_method PyStr.upper receiver_bic ;;
        bret (PyStr.contains pattern ru)).

(** The checks on the two BIC codes: flagged patterns, then equal codes. *)
Definition bic_checks (sender_bic receiver_bic : pyval) : Body unit :=
  for_each high_risk_patterns (fun pattern =>
    hit <- bic_matches pattern sender_bic receiver_bic ;;
    when hit (flag 0.4 (bic_reason pattern))) ;;;
  when (truthy sender_bic && bool_decide (sender_bic = receiver_bic))
    (flag 0.5 "Same sender and receiver BIC").

(** The scan of the remittance text. *)
Definition keyword_checks (remittance : pyval) : Body unit :=
  remittance <- str_method PyStr.lower remittance ;;
  for_each suspicious_keywords (fun keyword =>
    when (PyStr.contains keyword remittance)
      (flag 0.2 (keyword_reason keyword))).

Definition body (message : Message) : Body unit :=
  let sender_bic := dict_get message "sender_bic" (PStr "") in
  let receiver_bic := dict_get message "receiver_bic" (PStr "") in
  bic_checks sender_bic receiver_bic ;;;
  let remittance :=
    py_or (dict_get message "remittance_info" (PStr "")) (PStr "") in
  keyword_checks remittance.

Definition analyze (message : Message) : py ScoreResult :=
  run_analyze name (body message).

End FraudPatternDetectionAgent.

(** ** FraudGeographicRiskAgent *)

Module FraudGeographicRiskAgent.

Definition name : string := "FraudGeographicRiskAgent".

Definition high_risk_countries : gset string :=
  list_to_set
    ["IR"; "KP"; "SY"; "CU"; "VE"; "RU"; "BY"; "AF"; "IQ"; "LB";
     "SD"; "ZW"; "MM"; "YE"; "SO"; "CD"; "CG"; "HT"; "TG"; "GN"].

Definition medium_risk_countries : gset string :=
  list_to_set
    ["CN"; "HK"; "SG"; "AE"; "SA"; "QA"; "KW"; "BH"; "OM"; "JO";
     "TR"; "EG"; "MA"; "TN"; "DZ"; "LY"; "PK"; "BD"; "LK"; "NP"].

(** [c in countries] *)
Definition member (c : string) (countries : gset string) : bool :=
  bool_decide (c ∈ countries).

(** [bic[4:6].upper() if len(bic) >= 6 else ''] *)
Definition country_of (bic : pyval) : Body string :=
  n <- str_len bic ;;
  if (6 <=? n)%nat then str_method (fun s => PyStr.upper (PyStr.slice 4 6 s)) bic
  else bret "".

(** The condition of the "unusual combination" rule, the guard
    [sender_country and receiver_country] included. *)
Definition unusual_combination (sender_country receiver_country : string)
  : bool :=
  PyStr.truthy sender_country && PyStr.truthy receiver_country &&
  (let sender_high_risk := member sender_country high_risk_countries in
   let sender_med_risk := member sender_country medium_risk_countries in
   let receiver_high_risk := member receiver_country high_risk_countries in
   let receiver_med_risk := member receiver_country medium_risk_countries in
   (sender_high_risk && negb receiver_high_risk && negb receiver_med_risk)
   || (receiver_high_risk && negb sender_high_risk && negb sender_med_risk)).

Definition unusual_reason (sender_country receiver_country : string)
  : string :=
  "Unusual risk level combination: " ++ sender_country ++ " ? "
    ++ receiver_country.

Definition body (message : Message) : Body unit :=
  try_except
    (fun e => bool_decide (e = IndexError) || bool_decide (e = AttributeError))
    (let sender_bic := dict_get message "sender_bic" (PStr "") in
     let receiver_bic := dict_get message "receiver_bic" (PStr "") in
     sender_country <- country_of sender_bic ;;
     receiver_country <- country_of receiver_bic ;;
     when (member sender_country high_risk_countries)
       (flag 0.4 ("High-risk sender country: " ++ sender_country)) ;;;
     when (member receiver_country high_risk_countries)
       (flag 0.4 ("High-risk receiver country: " ++ receiver_country)) ;;;
     when (member sender_country medium_risk_countries)
       (flag 0.2 ("Medium-risk sender country: " ++ sender_country)) ;;;
     when (member receiver_country medium_risk_countries)
       (flag 0.2 ("Medium-risk receiver country: " ++ receiver_country)) ;;;
     when (unusual_combination sender_country receiver_country)
       (flag 0.3 (unusual_reason sender_country receiver_country))).

Definition analyze (message : Message) : py ScoreResult :=
  run_analyze name (body message).

End FraudGeographicRiskAgent.

(** ** FraudAggAgent *)

Record Verdict : Type := {
  is_fraudulent : bool;
  confidence : Q;
  total_risk_score : Q;
  aggregated_reasons : list string
}.

Module FraudAggAgent.

(** [self.threshold] *)
Definition threshold : Q := 0.5.

(** [sum(xs)]: a left fold from 0. *)
Definition py_sum (xs : list Q) : Q := fold_left Qplus xs 0%Q.

(** [f"[{agent_name}] {reason}"] *)
Definition tagged (agent_name reason : string) : string :=
  "[" ++ agent_name ++ "] " ++ reason.

(** The two nested loops that fill [all_reasons]. *)
Definition collect_reasons (fraud_results : list ScoreResult) : list string :=
  fold_left
    (fun all_reasons result =>
       fold_left
         (fun all_reasons reason =>
            (all_reasons ++ [tagged (agent result) reason])%list)
         (fraud_reasons result) all_reasons)
    fraud_results [].

Definition aggregate_results (fraud_results : list ScoreResult) : Verdict :=
  match fraud_results with
  | [] =>
      {| is_fraudulent := false; confidence := 0; total_risk_score := 0;
         aggregated_reasons := [] |}
  | _ =>
      let total_risk := py_sum (map risk_score fraud_results) in
      let avg_risk :=
        (total_risk / inject_Z (Z.of_nat (length fraud_results)))%Q in
      let all_reasons := collect_reasons fraud_results in
      {| is_fraudulent := Qle_bool threshold avg_risk;
         confidence := py_round (avg_risk * 100)%Q 2;
         total_risk_score := py_round avg_risk 3;
         aggregated_reasons := all_reasons |}
  end.

End FraudAggAgent.

(** ** ParallelizationPattern *)

(** A fraud detection agent as the coordinator sees it: its class name and
    its [analyze] method. *)
Record Agent : Type := {
  class_name : string;
  analyze : Message -> py ScoreResult
}.

Definition amount_agent : Agent :=
  {| class_name := FraudAmountDetectionAgent.name;
     analyze := FraudAmountDetectionAgent.analyze |}.

Definition pattern_agent : Agent :=
  {| class_name := FraudPatternDetectionAgent.name;
     analyze := FraudPatternDetectionAgent.analyze |}.

Definition geographic_agent : Agent :=
  {| class_name := FraudGeographicRiskAgent.name;
     analyze := FraudGeographicRiskAgent.analyze |}.

(** A future of the executor, as the coordinator's wait finds it: done with
    the value of the submitted call, or still not done when the timeout of
    [future.result(timeout=5)] expires. *)
Inductive Future : Type :=
  | Done (result : ScoreResult)
  | NotDone.

(** [future.result(timeout=5)] *)
Definition future_result (future : Future) : py ScoreResult :=
  match future with
  | Done result => Ret result
  | NotDone => Raise TimeoutError
  end.

(** A message with the four keys the coordinator writes into it. *)
Record ProcessedMessage : Type := {
  message : Message;
  fraud_status : string;
  fraud_score : Q;
  msg_fraud_reasons : list string;
  fraud_analysis : list ScoreResult
}.

(** A Python dict keyed by message identifiers, in insertion order. *)
Definition odict (V : Type) : Type := list (pyval * V).

(** [d[key] = value]: a new key goes last, an existing key keeps its place
    and takes the new value. *)
Fixpoint dict_set {V} (key : pyval) (value : V) (d : odict V) : odict V :=
  match d with
  | [] => [(key, value)]
  | (key', value') :: d' =>
      if decide (key = key') then (key, value) :: d'
      else (key', value') :: dict_set key value d'
  end.

Module ParallelizationPattern.

(** The executor takes a positive number of workers. *)
Record t : Type := {
  max_workers : positive;
  list_of_agents : list Agent
}.

(** [ParallelizationPattern(max_workers)] *)
Definition init (max_workers : positive) : t :=
  {| max_workers := max_workers;
     list_of_agents := [amount_agent; pattern_agent; geographic_agent] |}.

(** [result['message_id'] = value] *)
Definition set_message_id (result : ScoreResult) (value : pyval)
  : ScoreResult :=
  {| agent := agent result;
     risk_score := risk_score result;
     fraud_reasons := fraud_reasons result;
     message_id := Some value;
     error := error result |}.

Definition _process_message (message : Message) (agent : Agent)
  : ScoreResult :=
  match analyze agent message with
  | Ret result =>
      set_message_id result (dict_get message "message_id" (PStr "unknown"))
  | Raise e =>
      {| agent := class_name agent;
         risk_score := 0;
         fraud_reasons := [];
         message_id := None;
         error := Some e |}
  end.

(** [executor.submit(self._process_message, message, agent)], with the
    schedule telling whether the call is done when it is waited for. *)
Definition submit (in_time : bool) (message : Message) (agent : Agent)
  : Future :=
  if in_time then Done (_process_message message agent) else NotDone.

(** The submission loop over the batch; [i] is the position of the next
    message, [in_time i j] the schedule of its [j]-th agent's call. *)
Fixpoint submit_all (self : t) (in_time : nat -> nat -> bool) (i : nat)
    (messages : list Message)
    (future_to_msg : odict (Message * list Future))
  : py (odict (Message * list Future)) :=
  match messages with
  | [] => Ret future_to_msg
  | message :: messages' =>
      let agent_futures :=
        imap (fun j agent => submit (in_time i j) message agent)
             (list_of_agents self) in
      match message !! "message_id" with
      | None => Raise KeyError
      | Some msg_id =>
          submit_all self in_time (S i) messages'
            (dict_set msg_id (message, agent_futures) future_to_msg)
      end
  end.

(** The wait loop over one message's futures: a result is appended, an
    exception of the wait is printed and the loop goes on. *)
Fixpoint wait_all (futures : list Future) (agent_results : list ScoreResult)
  : list ScoreResult :=
  match futures with
  | [] => agent_results
  | future :: futures' =>
      match future_result future with
      | Ret result => wait_all futures' (agent_results ++ [result])
      | Raise _ => wait_all futures' agent_results
      end
  end.

(** One round of the collection loop. *)
Definition collect (msg_data : Message * list Future) : ProcessedMessage :=
  let message := fst msg_data in
  let agent_results := wait_all (snd msg_data) [] in
  let aggregated := FraudAggAgent.aggregate_results agent_results in
  {| message := message;
     fraud_status :=
       if is_fraudulent aggregated then "FRAUDULENT" else "CLEAN";
     fraud_score := confidence aggregated;
     msg_fraud_reasons := aggregated_reasons aggregated;
     fraud_analysis := agent_results |}.

Definition process_batch_parallel (self : t) (in_time : nat -> nat -> bool)
    (messages : list Message) : py (list ProcessedMessage) :=
  match submit_all self in_time 0 messages [] with
  | Raise e => Raise e
  | Ret future_to_msg =>
      Ret (map (fun item => collect (snd item)) future_to_msg)
  end.

End ParallelizationPattern.

(** ** Reference definitions used in the statements *)

(** [message = {k1: v1, ...}] *)
Definition mk (fields : list (string * pyval)) : Message := list_to_map fields.

(** The reasons of a sequence of results, each tagged with its scorer, in
    the order of the sequence. *)
Definition tagged_reasons (results : list ScoreResult) : list string :=
  flat_map
    (fun r => map (FraudAggAgent.tagged (agent r)) (fraud_reasons r)) results.

(** Arithmetic mean of the scores of a sequence of results. *)
Definition mean_score (results : list ScoreResult) : Q :=
  (fold_right Qplus 0%Q (map risk_score results)
   / inject_Z (Z.of_nat (length results)))%Q.


(** What the amount scorer keeps of the amount field before parsing it. *)
Definition digits_and_points (s : string) : string :=
  PyStr.join_filter (fun c => PyStr.isdigit c || PyStr.is_point c) s.


(** The value of a field is a string. *)
Definition is_text (v : pyval) : bool :=
  match v with
  | PStr _ => true
  | PNone => false
  end.

(** A score in the closed unit interval. *)
Definition in_unit_interval (r : ScoreResult) : Prop :=
  (0 <= risk_score r <= 1)%Q.

(** A body that never lowers [risk_score]. *)
Definition grows {A} (b : Body A) : Prop :=
  forall st, (l_risk_score st <= l_risk_score (snd (b st)))%Q.

(** The text a field holds once [None] and a missing key are read as the
    empty string. *)
Definition text_of (v : pyval) : string :=
  match v with
  | PStr s => s
  | PNone => ""
  end.

(** The flagged substrings found in at least one of two codes, compared in
    upper case, in the order of the scorer's list. *)
Definition matched_patterns (sender receiver : string) : list string :=
  List.filter
    (fun p => PyStr.contains p (PyStr.upper sender)
              || PyStr.contains p (PyStr.upper receiver))
    FraudPatternDetectionAgent.high_risk_patterns.

(** The suspicious keywords found in a text, compared in lower case. *)
Definition found_keywords (text : string) : list string :=
  List.filter (fun k => PyStr.contains k (PyStr.lower text))
    FraudPatternDetectionAgent.suspicious_keywords.

(** Sender and receiver codes are the same non-empty string. *)
Definition same_bic (sender receiver : string) : bool :=
  PyStr.truthy sender && bool_decide (sender = receiver).

(** [k] times the weight [w]. *)
Definition times (w : Q) (k : nat) : Q := (w * inject_Z (Z.of_nat k))%Q.

(** The country code read from a BIC: characters 4 and 5 in upper case when
    the BIC has at least 6 characters, the empty string otherwise. *)
Definition country_code (bic : string) : string :=
  if (6 <=? String.length bic)%nat then PyStr.upper (PyStr.slice 4 6 bic)
  else "".

Definition high_risk (c : string) : bool :=
  FraudGeographicRiskAgent.member c FraudGeographicRiskAgent.high_risk_countries.

Definition medium_risk (c : string) : bool :=
  FraudGeographicRiskAgent.member c FraudGeographicRiskAgent.medium_risk_countries.

(** [w] when the test holds, nothing otherwise. *)
Definition weight_if (test : bool) (w : Q) : Q := if test then w else 0%Q.

(** The reason when the test holds, nothing otherwise. *)
Definition reason_if (test : bool) (reason : string) : list string :=
  if test then [reason] else [].

(** The score of the four membership rules of the geographic scorer. *)
Definition membership_score (sc rc : string) : Q :=
  (weight_if (high_risk sc) 0.4 + weight_if (high_risk rc) 0.4
   + weight_if (medium_risk sc) 0.2 + weight_if (medium_risk rc) 0.2)%Q.

(** One side is high-risk and the other side is in neither set. *)
Definition one_sided_high (sc rc : string) : Prop :=
  (high_risk sc = true /\ high_risk rc = false /\ medium_risk rc = false)
  \/ (high_risk rc = true /\ high_risk sc = false /\ medium_risk sc = false).

#[global] Instance one_sided_high_dec (sc rc : string) :
  Decision (one_sided_high sc rc).
Proof. unfold one_sided_high. apply _. Defined.

(** The identifiers of a batch, [None] for a record without one. *)
Definition message_ids (messages : list Message) : list (option pyval) :=
  map (fun m => m !! "message_id") messages.

(** The futures of the [i]-th record of a batch, one per registered agent,
    in registration order. *)
Definition futures_of (self : ParallelizationPattern.t)
    (in_time : nat -> nat -> bool) (i : nat) (m : Message) : list Future :=
  imap (fun j agent => ParallelizationPattern.submit (in_time i j) m agent)
       (ParallelizationPattern.list_of_agents self).

(** The [i]-th record of a batch, annotated from its own futures. *)
Definition annotated (self : ParallelizationPattern.t)
    (in_time : nat -> nat -> bool) (i : nat) (m : Message) : ProcessedMessage :=
  ParallelizationPattern.collect (m, futures_of self in_time i m).

(** The result of a future that is done. *)
Definition done_result (future : Future) : option ScoreResult :=
  match future with
  | Done result => Some result
  | NotDone => None
  end.

(** The slot the specification describes for a scorer that produced no
    result: its name, score 0, no reasons. *)
Definition zero_slot (agent : Agent) : ScoreResult :=
  score_dict (class_name agent) 0 [].

(** The dict the submission loop builds from position [i] on, when every
    record has an identifier. *)
Fixpoint register (self : ParallelizationPattern.t)
    (in_time : nat -> nat -> bool) (i : nat) (messages : list Message)
    (d : odict (Message * list Future)) : odict (Message * list Future) :=
  match messages with
  | [] => d
  | m :: messages' =>
      register self in_time (S i) messages'
        (dict_set (dict_get m "message_id" PNone)
                  (m, futures_of self in_time i m) d)
  end.

(** The distinct elements of [ks] that are not in [seen], each at its first
    occurrence. *)
Fixpoint first_occurrences (seen ks : list pyval) : list pyval :=
  match ks with
  | [] => []
  | k :: ks' =>
      if decide (k ∈ seen) then first_occurrences seen ks'
      else k :: first_occurrences (k :: seen) ks'
  end.

(** The identifier of a record that has one. *)
Definition id_of (m : Message) : pyval := dict_get m "message_id" PNone.

(** No record after position [j] of the batch has the identifier [k]. *)
Definition last_with_id (messages : list Message) (j : nat) (k : pyval) : Prop :=
  forall j' m', (j < j')%nat -> messages !! j' = Some m' -> id_of m' <> k.

(** The verdict of a record for which no scorer call produced a result. *)
Definition unscored (m : Message) : ProcessedMessage :=
  {| message := m; fraud_status := "CLEAN"; fraud_score := 0;
     msg_fraud_reasons := []; fraud_analysis := [] |}.

(** A slot that stands for a failed [analyze]: score 0 and no reasons. *)
Definition zero_when_failed (r : ScoreResult) : Prop :=
  is_Some (error r) -> risk_score r = 0%Q /\ fraud_reasons r = [].

(** What the coordinator guarantees of every record it returns. *)
Definition consistent_annotation (o : ProcessedMessage) : Prop :=
  (0 <= fraud_score o <= 100)%Q
  /\ ((fraud_status o = "FRAUDULENT" /\ (50 <= fraud_score o)%Q)
      \/ (fraud_status o = "CLEAN" /\ (fraud_score o <= 50)%Q))
  /\ (length (fraud_analysis o) <= 3)%nat
  /\ Forall in_unit_interval (fraud_analysis o)
  /\ msg_fraud_reasons o = tagged_reasons (fraud_analysis o).

(** Every character of the string is a 7-bit ASCII character. *)
Fixpoint ascii_only (s : string) : bool :=
  match s with
  | EmptyString => true
  | String c s' => (PyStr.code c <? 128)%N && ascii_only s'
  end.

(** ** More Python string and float operations *)

Module PyText.

(** [c.isspace()] on ASCII: tab, line feed, vertical tab, form feed,
    carriage return, the four separators 28-31 and the space. *)
Definition is_space (c : ascii) : bool :=
  let n := PyStr.code c in
  ((9 <=? n)%N && (n <=? 13)%N) || ((28 <=? n)%N && (n <=? 32)%N).

Definition is_alpha (c : ascii) : bool := PyStr.is_lower c || PyStr.is_upper c.

Definition is_alnum (c : ascii) : bool := is_alpha c || PyStr.isdigit c.

Fixpoint all_chars (test : ascii -> bool) (s : string) : bool :=
  match s with
  | EmptyString => true
  | String c s' => test c && all_chars test s'
  end.

(** [s.isalpha()], [s.isalnum()]: false on the empty string. *)
Definition isalpha (s : string) : bool := PyStr.truthy s && all_chars is_alpha s.
Definition isalnum (s : string) : bool := PyStr.truthy s && all_chars is_alnum s.

(** [s.split()]: the maximal runs of characters that are not whitespace;
    [word] is the run being read. *)
Fixpoint split_from (s word : string) : list string :=
  match s with
  | EmptyString => if PyStr.truthy word then [word] else []
  | String c s' =>
      if is_space c then
        if PyStr.truthy word then word :: split_from s' EmptyString
        else split_from s' EmptyString
      else split_from s' (word ++ String c EmptyString)
  end.

Definition split (s : string) : list string := split_from s EmptyString.

(** [str(v)] as an f-string prints a value. *)
Definition str (v : pyval) : string :=
  match v with
  | PNone => "None"
  | PStr s => s
  end.

(** Multiplies by 10 until the value reaches 1, counting the steps down. *)
Fixpoint scale_up (fuel : nat) (x : Q) (e : Z) : Q * Z :=
  match fuel with
  | O => (x, e)
  | S fuel' =>
      if Qle_bool 1 x then (x, e) else scale_up fuel' (x * 10)%Q (e - 1)%Z
  end.

(** Divides by 10 until the value is below 10, counting the steps up. *)
Fixpoint scale_down (fuel : nat) (x : Q) (e : Z) : Q * Z :=
  match fuel with
  | O => (x, e)
  | S fuel' =>
      if Qle_bool 10 x then scale_down fuel' (x / 10)%Q (e + 1)%Z else (x, e)
  end.

(** Decimal mantissa in [1, 10) and exponent of a positive value. *)
Definition normalize (x : Q) : Q * Z :=
  let bits := S (Z.to_nat (Z.log2 (Qnum x)) + Pos.size_nat (Qden x)) in
  if Qle_bool 1 x then scale_down bits x 0 else scale_up bits x 0.

(** Exponent of the scientific notation: a sign and at least two digits. *)
Definition exponent_text (e : Z) : string :=
  let digits := pretty (Z.abs e) in
  (if (e <? 0)%Z then "e-" else "e+")
  ++ (if (String.length digits <? 2)%nat then "0" ++ digits else digits).

(** [repr(x)], which is also how an f-string prints [x], for a non-negative
    float read from a decimal literal of at most 15 significant digits (the
    shortest decimal that reads back as [x] is then the literal's value):
    positional notation with at least one fractional digit when the decimal
    exponent is between -4 and 15, scientific notation otherwise. *)
Definition float_repr (x : Q) : string :=
  if Qeq_bool x 0 then "0.0"
  else
    let fuel := S (Z.to_nat (Z.log2 (Qnum x)) + Pos.size_nat (Qden x)) in
    let '(mantissa, e) := normalize x in
    if ((-4 <=? e) && (e <? 16))%Z then
      let ip := Qfloor x in
      let fd := PyStr.frac_digits fuel (x - inject_Z ip) in
      pretty ip ++ "." ++ (if PyStr.truthy fd then fd else "0")
    else
      let d := Qfloor mantissa in
      let fd := PyStr.frac_digits fuel (mantissa - inject_Z d) in
      pretty d ++ (if PyStr.truthy fd then "." ++ fd else "") ++ exponent_text e.

End PyText.
(** ** EvaluatorOptimizerPattern *)

(** A message with the two keys the evaluator-optimizer loop writes into
    it; [None] while the loop has written neither. *)
Record ValidatedMessage : Type := {
  v_message : Message;
  validation : option (string * list string)
}.

Module EvaluatorOptimizerPattern.

Definition MAX_ITERATIONS : nat := 3.

(** [self.SWIFT_STANDARDS] *)
Definition max_reference_length : nat := 16.
Definition max_amount : Q := 999999999.99.
Definition min_amount : Q := 0.01.
Definition required_fields : list string :=
  ["message_type"; "reference"; "amount"; "sender_bic"; "receiver_bic"].
Definition valid_message_types : list string := ["MT103"; "MT202"].
Definition valid_currencies : list string := ["USD"; "EUR"; "GBP"; "JPY"; "CHF"].

(** [v in xs] for a list of strings. *)
Definition in_strings (v : pyval) (xs : list string) : bool :=
  match v with
  | PStr s => bool_decide (s ∈ xs)
  | PNone => false
  end.

Definition _validate_bic (bic : pyval) : bool :=
  match bic with
  | PNone => false
  | PStr s =>
      let len := String.length s in
      if negb (PyStr.truthy s) then false
      else if negb (bool_decide (len ∈ [8; 11]%nat)) then false
      else if negb (PyText.isalpha (PyStr.slice 0 4 s)) then false
      else if negb (PyText.isalpha (PyStr.slice 4 6 s)) then false
      else if negb (PyText.isalnum (PyStr.slice 6 8 s)) then false
      else if (len =? 11)%nat && negb (PyText.isalnum (PyStr.slice 8 11 s))
           then false
      else true
  end.

(** The loop over the required fields. *)
Definition missing_field_errors (message : Message) : list string :=
  flat_map
    (fun field =>
       match message !! field with
       | None => ["Missing required field: " ++ field]
       | Some v =>
           if negb (truthy v) then ["Missing required field: " ++ field] else []
       end)
    required_fields.

Definition message_type_errors (message : Message) : list string :=
  let message_type := dict_get message "message_type" PNone in
  if negb (in_strings message_type valid_message_types)
  then ["Invalid message type: " ++ PyText.str message_type]
  else [].

(** [len(reference)] raises on [None]. *)
Definition reference_errors (message : Message) : py (list string) :=
  match dict_get message "reference" (PStr "") with
  | PNone => Raise TypeError
  | PStr reference =>
      let n := String.length reference in
      Ret (if (max_reference_length <? n)%nat
           then ["Reference too long: " ++ pretty n ++ " chars (max "
                   ++ pretty max_reference_length ++ ")"]
           else [])
  end.

(** The [try] block on the amount; the three exceptions it catches give
    the same error. *)
Definition amount_errors (message : Message) : list string :=
  let invalid :=
    ["Invalid amount format: " ++ PyText.str (dict_get message "amount" PNone)] in
  match dict_get message "amount" (PStr "0") with
  | PNone => invalid
  | PStr amount_str =>
      match PyText.split amount_str with
      | [] => invalid
      | first :: _ =>
          match PyStr.float
                  (PyStr.join_filter
                     (fun c => PyStr.isdigit c || PyStr.is_point c) first)
          with
          | None => invalid
          | Some amount_value =>
              if Qgt_bool amount_value max_amount
              then ["Amount exceeds maximum: " ++ PyText.float_repr amount_value]
              else if Qgt_bool min_amount amount_value
              then ["Amount below minimum: " ++ PyText.float_repr amount_value]
              else []
          end
      end
  end.

Definition bic_errors (message : Message) : list string :=
  let sender_bic := dict_get message "sender_bic" (PStr "") in
  let receiver_bic := dict_get message "receiver_bic" (PStr "") in
  let invalid_sender := "Invalid sender BIC: " ++ PyText.str sender_bic in
  let invalid_receiver := "Invalid receiver BIC: " ++ PyText.str receiver_bic in
  ((if negb (_validate_bic sender_bic) then [invalid_sender] else [])
   ++ (if negb (_validate_bic receiver_bic) then [invalid_receiver] else [])
   ++ (if truthy sender_bic && bool_decide (sender_bic = receiver_bic)
       then ["Sender and receiver BIC cannot be the same"] else []))%list.

Definition currency_errors (message : Message) : list string :=
  match message !! "amount" with
  | None => []
  | Some PNone => ["Cannot extract currency from amount"]
  | Some (PStr amount) =>
      match last (PyText.split amount) with
      | None => ["Cannot extract currency from amount"]
      | Some currency =>
          if negb (bool_decide (currency ∈ valid_currencies))
          then ["Invalid currency: " ++ currency] else []
      end
  end.

Definition evaluate_message (message : Message) : py (bool * list string) :=
  let errors :=
    (missing_field_errors message ++ message_type_errors message)%list in
  match reference_errors message with
  | Raise e => Raise e
  | Ret too_long =>
      let errors :=
        (errors ++ too_long ++ amount_errors message ++ bic_errors message
         ++ currency_errors message)%list in
      Ret ((length errors =? 0)%nat, errors)
  end.

(** The loop that completes a corrected message with the required fields it
    lacks. *)
Definition fill_required (corrected message : Message) : Message :=
  fold_left
    (fun corrected field =>
       match corrected !! field with
       | Some _ => corrected
       | None => <[field := dict_get message field (PStr "")]> corrected
       end)
    required_fields corrected.

(** [optimize_message]; [respond] is the answer of the correction agent,
    which catches its own failures and then answers with the message it was
    given.  An answer is taken to be a dict whose values are strings or
    nulls, like the messages themselves. *)
Definition optimize_message (respond : Message -> list string -> Message)
    (message : Message) (errors : list string) : Message :=
  match errors with
  | [] => message
  | _ => fill_required (respond message errors) message
  end.

(** The inner loop over [range(MAX_ITERATIONS)] for one message: [status]
    is what has been written so far into the message. *)
Fixpoint validation_loop (respond : nat -> Message -> list string -> Message)
    (iterations : list nat) (message : Message)
    (status : option (string * list string)) : py ValidatedMessage :=
  match iterations with
  | [] => Ret {| v_message := message; validation := status |}
  | iteration :: iterations' =>
      match evaluate_message message with
      | Raise e => Raise e
      | Ret (is_valid, errors) =>
          if is_valid then
            Ret {| v_message := message; validation := Some ("VALID", []) |}
          else if (iteration <? MAX_ITERATIONS - 1)%nat then
            validation_loop respond iterations'
              (optimize_message (respond iteration) message errors) status
          else
            validation_loop respond iterations' message
              (Some ("INVALID", errors))
      end
  end.

(** The outer loop; [respond i k] is the correction agent's answer at
    iteration [k] on the [i]-th message. *)
Fixpoint process_from
    (respond : nat -> nat -> Message -> list string -> Message)
    (i : nat) (messages : list Message) : py (list ValidatedMessage) :=
  match messages with
  | [] => Ret []
  | message :: messages' =>
      match validation_loop (respond i) (seq 0 MAX_ITERATIONS) message None with
      | Raise e => Raise e
      | Ret v =>
          match process_from respond (S i) messages' with
          | Raise e => Raise e
          | Ret vs => Ret (v :: vs)
          end
      end
  end.

Definition process_with_evaluator_optimizer
    (respond : nat -> nat -> Message -> list string -> Message)
    (messages : list Message) : py (list ValidatedMessage) :=
  process_from respond 0 messages.

End EvaluatorOptimizerPattern.

(** What the evaluator accepts, read as a description of the message: the
    five required fields are non-empty strings, the type is known, the
    reference is short enough, the first word of the amount is a number in
    range, its last word is a known currency, and the two codes are valid
    and different. *)
Definition accepted (m : Message) : Prop :=
  exists ty ref amt s r first cur x,
    m !! "message_type" = Some (PStr ty)
    /\ ty ∈ EvaluatorOptimizerPattern.valid_message_types
    /\ m !! "reference" = Some (PStr ref)
    /\ ref <> ""
    /\ (String.length ref <= 16)%nat
    /\ m !! "amount" = Some (PStr amt)
    /\ head (PyText.split amt) = Some first
    /\ PyStr.float (digits_and_points first) = Some x
    /\ (0.01 <= x <= 999999999.99)%Q
    /\ last (PyText.split amt) = Some cur
    /\ cur ∈ EvaluatorOptimizerPattern.valid_currencies
    /\ m !! "sender_bic" = Some (PStr s)
    /\ EvaluatorOptimizerPattern._validate_bic (PStr s) = true
    /\ m !! "receiver_bic" = Some (PStr r)
    /\ EvaluatorOptimizerPattern._validate_bic (PStr r) = true
    /\ s <> r.

(** Six letters followed by alphanumeric characters. *)
Definition bic_shape (s : string) : bool :=
  PyText.all_chars PyText.is_alpha (String.substring 0 6 s)
  && PyText.all_chars PyText.is_alnum (String.substring 6 5 s).

(** The status written into a message is the evaluator's verdict on that
    message: VALID without errors, or INVALID with the errors found. *)
Definition verdict_recorded (v : ValidatedMessage) : Prop :=
  (validation v = Some ("VALID", [])
   /\ EvaluatorOptimizerPattern.evaluate_message (v_message v) = Ret (true, []))
  \/ (exists errors,
        validation v = Some ("INVALID", errors)
        /\ errors <> []
        /\ EvaluatorOptimizerPattern.evaluate_message (v_message v)
           = Ret (false, errors)).

(** The reference of a message is not null. *)
Definition reference_not_null (m : Message) : Prop :=
  m !! "reference" <> Some PNone.

(** ** SWIFTProcessingSystem *)

Module SWIFTProcessingSystem.



End SWIFTProcessingSystem.


(** * Properties *)

(** ** The aggregator *)

(** C9: the aggregator maps the empty sequence of results to the verdict
    "not fraudulent, confidence 0, total risk score 0, no reasons". *)
Theorem aggregate_empty :
  FraudAggAgent.aggregate_results [] =
    {| is_fraudulent := false; confidence := 0; total_risk_score := 0;
       aggregated_reasons := [] |}.
Proof. reflexivity. Qed.

Lemma inner_reasons_loop (name : string) (reasons acc : list string) :
  fold_left (fun all reason => (all ++ [FraudAggAgent.tagged name reason])%list)
            reasons acc
  = (acc ++ map (FraudAggAgent.tagged name) reasons)%list.
Proof.
  revert acc; induction reasons as [|reason reasons IH]; intros acc; simpl.
  - by rewrite app_nil_r.
  - rewrite IH, <- app_assoc. reflexivity.
Qed.

Lemma outer_reasons_loop (results : list ScoreResult) (acc : list string) :
  fold_left
    (fun all result =>
       fold_left
         (fun all reason =>
            (all ++ [FraudAggAgent.tagged (agent result) reason])%list)
         (fraud_reasons result) all)
    results acc
  = (acc ++ tagged_reasons results)%list.
Proof.
  revert acc; induction results as [|r results IH]; intros acc; simpl.
  - by rewrite app_nil_r.
  - rewrite IH, inner_reasons_loop, <- app_assoc. reflexivity.
Qed.

(** C5: the aggregated reasons of a verdict are the reasons of the results,
    in the order of the results, each prefixed with the name of its scorer
    in brackets; nothing is dropped, reordered, repeated or added. *)
Theorem aggregated_reasons_concat (results : list ScoreResult) :
  aggregated_reasons (FraudAggAgent.aggregate_results results)
  = concat
      (map (fun r =>
              map (fun reason => "[" ++ agent r ++ "] " ++ reason)
                  (fraud_reasons r))
           results).
Proof.
  transitivity (tagged_reasons results).
  - destruct results as [|r results]; [reflexivity|].
    unfold FraudAggAgent.aggregate_results, FraudAggAgent.collect_reasons.
    cbn [aggregated_reasons]. apply (outer_reasons_loop (r :: results) []).
  - unfold tagged_reasons. induction results as [|r results IH]; simpl.
    + reflexivity.
    + rewrite IH. reflexivity.
Qed.

Lemma py_sum_from (xs : list Q) (a : Q) :
  (fold_left Qplus xs a == a + fold_right Qplus 0 xs)%Q.
Proof.
  revert a; induction xs as [|x xs IH]; intros a; simpl.
  - ring.
  - rewrite IH. ring.
Qed.

Lemma py_sum_fold_right (xs : list Q) :
  (FraudAggAgent.py_sum xs == fold_right Qplus 0 xs)%Q.
Proof. unfold FraudAggAgent.py_sum. rewrite py_sum_from. ring. Qed.

Lemma round_half_even_ext (x y : Q) :
  (x == y)%Q -> round_half_even x = round_half_even y.
Proof.
  intros E. unfold round_half_even.
  rewrite (Qfloor_comp _ _ E).
  assert (C : ((x - inject_Z (Qfloor y)) ?= (1 # 2))%Q
            = ((y - inject_Z (Qfloor y)) ?= (1 # 2))%Q).
  { apply Qcompare_comp; [rewrite E|]; reflexivity. }
  rewrite C. reflexivity.
Qed.

Lemma py_round_ext (x y : Q) (ndigits : nat) :
  (x == y)%Q -> py_round x ndigits = py_round y ndigits.
Proof.
  intros E. unfold py_round.
  set (scale := inject_Z (10 ^ Z.of_nat ndigits)).
  assert (S : (x * scale == y * scale)%Q) by (rewrite E; reflexivity).
  rewrite (round_half_even_ext _ _ S). reflexivity.
Qed.



(** ** Scorer bodies: scores only grow *)

Lemma grows_bret {A} (a : A) : grows (bret a).
Proof. intros st. simpl. apply Qle_refl. Qed.

Lemma grows_braise {A} (e : pyexn) : grows (@braise A e).
Proof. intros st. simpl. apply Qle_refl. Qed.

Lemma grows_bbind {A B} (m : Body A) (k : A -> Body B) :
  grows m -> (forall a, grows (k a)) -> grows (bbind m k).
Proof.
  intros Hm Hk st. unfold bbind. specialize (Hm st).
  destruct (m st) as [[e|a] st']; simpl in *; [exact Hm|].
  eapply Qle_trans; [exact Hm | apply Hk].
Qed.

Lemma grows_flag (w : Q) (reason : string) : (0 <= w)%Q -> grows (flag w reason).
Proof. intros Hw st. simpl. lra. Qed.

Lemma grows_when (cond : bool) (body : Body unit) :
  grows body -> grows (when cond body).
Proof. intros Hb. destruct cond; simpl; [exact Hb | apply grows_bret]. Qed.

Lemma grows_for_each {A} (xs : list A) (body : A -> Body unit) :
  (forall x, grows (body x)) -> grows (for_each xs body).
Proof.
  intros Hb. induction xs as [|x xs IH]; simpl.
  - apply grows_bret.
  - apply grows_bbind; [apply Hb | intros _; exact IH].
Qed.

Lemma grows_try_except (handled : pyexn -> bool) (body : Body unit) :
  grows body -> grows (try_except handled body).
Proof.
  intros Hb st. unfold try_except. specialize (Hb st).
  destruct (body st) as [[e|[]] st']; simpl in *; [|exact Hb].
  destruct (handled e); exact Hb.
Qed.

Lemma grows_str_method (f : string -> string) (v : pyval) :
  grows (str_method f v).
Proof. destruct v; [apply grows_braise | apply grows_bret]. Qed.

Lemma grows_str_len (v : pyval) : grows (str_len v).
Proof. destruct v; [apply grows_braise | apply grows_bret]. Qed.

Lemma grows_iter_str (v : pyval) : grows (iter_str v).
Proof. destruct v; [apply grows_braise | apply grows_bret]. Qed.

Create HintDb grows.

#[local] Hint Resolve grows_bret grows_braise grows_bbind grows_when
  grows_for_each grows_try_except grows_str_method grows_str_len
  grows_iter_str : grows.

Ltac grows_flag_now := apply grows_flag; unfold Qle; simpl; lia.

Lemma py_min_unit (x : Q) : (0 <= x)%Q -> (0 <= py_min x 1 <= 1)%Q.
Proof.
  intros Hx. unfold py_min, Qgt_bool.
  destruct (Qle_bool x 1) eqn:E; simpl.
  - apply Qle_bool_iff in E. split; assumption.
  - split; [unfold Qle; simpl; lia | apply Qle_refl].
Qed.

Lemma run_analyze_unit (name : string) (body : Body unit) (r : ScoreResult) :
  grows body -> run_analyze name body = Ret r -> in_unit_interval r.
Proof.
  intros Hg. unfold run_analyze. specialize (Hg init_locals).
  destruct (body init_locals) as [[e|[]] st]; [discriminate|].
  intros [= <-]. unfold in_unit_interval. simpl. apply py_min_unit.
  exact Hg.
Qed.

Lemma amount_body_grows (m : Message) : grows (FraudAmountDetectionAgent.body m).
Proof.
  unfold FraudAmountDetectionAgent.body.
  apply grows_try_except, grows_bbind; [apply grows_iter_str|]. intros s.
  apply grows_bbind.
  { destruct (PyStr.float _); auto with grows. }
  intros amount.
  repeat (apply grows_bbind; [apply grows_when; grows_flag_now | intros _]).
  apply grows_when; grows_flag_now.
Qed.

Lemma pattern_body_grows (m : Message) : grows (FraudPatternDetectionAgent.body m).
Proof.
  unfold FraudPatternDetectionAgent.body, FraudPatternDetectionAgent.bic_checks,
    FraudPatternDetectionAgent.keyword_checks.
  apply grows_bbind; [|intros _].
  - apply grows_bbind; [|intros _; apply grows_when; grows_flag_now].
    apply grows_for_each. intros p. apply grows_bbind.
    + unfold FraudPatternDetectionAgent.bic_matches.
      apply grows_bbind; [apply grows_str_method|]. intros su.
      destruct (PyStr.contains p su); [apply grows_bret|].
      apply grows_bbind; [apply grows_str_method | intros; apply grows_bret].
    + intros hit. apply grows_when; grows_flag_now.
  - apply grows_bbind; [apply grows_str_method|]. intros t.
    apply grows_for_each. intros k. apply grows_when; grows_flag_now.
Qed.

Lemma country_of_grows (v : pyval) : grows (FraudGeographicRiskAgent.country_of v).
Proof.
  unfold FraudGeographicRiskAgent.country_of.
  apply grows_bbind; [apply grows_str_len|]. intros n.
  destruct (6 <=? n)%nat; [apply grows_str_method | apply grows_bret].
Qed.

Lemma geographic_body_grows (m : Message) :
  grows (FraudGeographicRiskAgent.body m).
Proof.
  unfold FraudGeographicRiskAgent.body.
  apply grows_try_except.
  apply grows_bbind; [apply country_of_grows|]. intros sc.
  apply grows_bbind; [apply country_of_grows|]. intros rc.
  repeat (apply grows_bbind; [apply grows_when; grows_flag_now | intros _]).
  apply grows_when; grows_flag_now.
Qed.

(** Whatever the message, a score that a scorer returns is in [0, 1]. *)
Lemma returned_scores_in_unit_interval (m : Message) (r : ScoreResult) :
  FraudAmountDetectionAgent.analyze m = Ret r
  \/ FraudPatternDetectionAgent.analyze m = Ret r
  \/ FraudGeographicRiskAgent.analyze m = Ret r ->
  in_unit_interval r.
Proof.
  intros [H|[H|H]]; eapply run_analyze_unit; try exact H.
  - apply amount_body_grows.
  - apply pattern_body_grows.
  - apply geographic_body_grows.
Qed.

(** ** Loops that flag *)

Lemma for_each_when_flag {A} (xs : list A) (f : A -> bool) (w : Q)
    (g : A -> string) (st : locals) :
  exists st',
    for_each xs (fun x => when (f x) (flag w (g x))) st = (inr tt, st')
    /\ l_fraud_reasons st' = (l_fraud_reasons st ++ map g (List.filter f xs))%list
    /\ (l_risk_score st'
        == l_risk_score st + times w (length (List.filter f xs)))%Q.
Proof.
  revert st; induction xs as [|x xs IH]; intros st.
  - exists st. cbn. repeat split.
    + by rewrite app_nil_r.
    + unfold times. simpl. ring.
  - cbn [for_each List.filter]. unfold bbind at 1.
    destruct (f x) eqn:Fx; cbn [when].
    + cbn [flag]. destruct (IH {| l_risk_score := l_risk_score st + w;
          l_fraud_reasons := (l_fraud_reasons st ++ [g x])%list |})
        as (st' & E & R & S).
      exists st'. split; [exact E|]. cbn [l_fraud_reasons l_risk_score] in R, S.
      split.
      * rewrite R, <- app_assoc. reflexivity.
      * rewrite S. unfold times. cbn [length].
        rewrite Nat2Z.inj_succ, <- Z.add_1_r, inject_Z_plus. ring.
    + cbn [bret]. destruct (IH st) as (st' & E & R & S).
      exists st'. repeat split; assumption.
Qed.

Lemma for_each_ext {A} (xs : list A) (b1 b2 : A -> Body unit) :
  (forall x st, b1 x st = b2 x st) ->
  forall st, for_each xs b1 st = for_each xs b2 st.
Proof.
  intros E. induction xs as [|x xs IH]; intros st; [reflexivity|].
  cbn [for_each]. unfold bbind. rewrite E.
  destruct (b2 x st) as [[e|[]] st']; [reflexivity | apply IH].
Qed.

Lemma bic_matches_text (p s r : string) (st : locals) :
  FraudPatternDetectionAgent.bic_matches p (PStr s) (PStr r) st
  = (inr (PyStr.contains p (PyStr.upper s) || PyStr.contains p (PyStr.upper r)),
     st).
Proof.
  unfold FraudPatternDetectionAgent.bic_matches, str_method, bbind, bret.
  destruct (PyStr.contains p (PyStr.upper s)); reflexivity.
Qed.

Lemma bic_loop_text (s r : string) (xs : list string) (st : locals) :
  for_each xs (fun pattern =>
      hit <- FraudPatternDetectionAgent.bic_matches pattern (PStr s) (PStr r) ;;
      when hit (flag 0.4 (FraudPatternDetectionAgent.bic_reason pattern))) st
  = for_each xs (fun pattern =>
      when (PyStr.contains pattern (PyStr.upper s)
            || PyStr.contains pattern (PyStr.upper r))
        (flag 0.4 (FraudPatternDetectionAgent.bic_reason pattern))) st.
Proof.
  apply for_each_ext. intros p st'. unfold bbind.
  rewrite bic_matches_text. reflexivity.
Qed.

(** The BIC checks on two strings: one flag per matched pattern, then the
    flag of equal codes. *)
Lemma bic_checks_text (s r : string) (st : locals) :
  exists st',
    FraudPatternDetectionAgent.bic_checks (PStr s) (PStr r) st = (inr tt, st')
    /\ l_fraud_reasons st'
       = (l_fraud_reasons st
          ++ map FraudPatternDetectionAgent.bic_reason (matched_patterns s r)
          ++ (if same_bic s r then ["Same sender and receiver BIC"] else []))%list
    /\ (l_risk_score st'
        == l_risk_score st + times 0.4 (length (matched_patterns s r))
           + (if same_bic s r then 0.5 else 0))%Q.
Proof.
  unfold FraudPatternDetectionAgent.bic_checks, bbind at 1.
  rewrite bic_loop_text.
  destruct (for_each_when_flag FraudPatternDetectionAgent.high_risk_patterns
              (fun p => PyStr.contains p (PyStr.upper s)
                        || PyStr.contains p (PyStr.upper r))
              0.4 FraudPatternDetectionAgent.bic_reason st)
    as (st1 & E & R & S).
  rewrite E. fold (matched_patterns s r) in R, S.
  assert (T : truthy (PStr s) && bool_decide (PStr s = PStr r) = same_bic s r).
  { unfold same_bic. cbn [truthy]. f_equal.
    apply bool_decide_ext. split; [intros [= ->] | intros ->]; reflexivity. }
  rewrite T. destruct (same_bic s r); cbn [when flag bret].
  - eexists. split; [reflexivity|]. cbn [l_fraud_reasons l_risk_score].
    split; [rewrite R, <- app_assoc; reflexivity | rewrite S; reflexivity].
  - exists st1. split; [reflexivity|].
    split; [rewrite R, app_nil_r; reflexivity | rewrite S; ring].
Qed.

(** The keyword scan on a text. *)
Lemma keyword_checks_text (t : string) (st : locals) :
  exists st',
    FraudPatternDetectionAgent.keyword_checks (PStr t) st = (inr tt, st')
    /\ l_fraud_reasons st'
       = (l_fraud_reasons st
          ++ map FraudPatternDetectionAgent.keyword_reason (found_keywords t))%list
    /\ (l_risk_score st'
        == l_risk_score st + times 0.2 (length (found_keywords t)))%Q.
Proof.
  unfold FraudPatternDetectionAgent.keyword_checks, str_method, bbind, bret.
  apply (for_each_when_flag FraudPatternDetectionAgent.suspicious_keywords
           (fun k => PyStr.contains k (PyStr.lower t)) 0.2
           FraudPatternDetectionAgent.keyword_reason st).
Qed.

Lemma py_or_text (v : pyval) : py_or v (PStr "") = PStr (text_of v).
Proof. destruct v as [|[|c s]]; reflexivity. Qed.

Lemma py_min_ext (x y : Q) : (x == y)%Q -> (py_min x 1 == py_min y 1)%Q.
Proof.
  intros E. unfold py_min, Qgt_bool.
  rewrite (Qleb_comp x y E 1%Q 1%Q (Qeq_refl 1%Q)).
  destruct (Qle_bool y 1); simpl; [exact E | reflexivity].
Qed.

(** The pattern scorer on a message whose two codes are strings (a missing
    code reads as the empty string): the reasons and the score in closed
    form. *)
Lemma pattern_closed_form (m : Message) (s r : string) :
  dict_get m "sender_bic" (PStr "") = PStr s ->
  dict_get m "receiver_bic" (PStr "") = PStr r ->
  let t := text_of (dict_get m "remittance_info" (PStr "")) in
  exists res,
    FraudPatternDetectionAgent.analyze m = Ret res
    /\ agent res = FraudPatternDetectionAgent.name
    /\ fraud_reasons res
       = (map FraudPatternDetectionAgent.bic_reason (matched_patterns s r)
          ++ (if same_bic s r then ["Same sender and receiver BIC"] else [])
          ++ map FraudPatternDetectionAgent.keyword_reason (found_keywords t))%list
    /\ (risk_score res
        == py_min (times 0.4 (length (matched_patterns s r))
                   + (if same_bic s r then 0.5 else 0)
                   + times 0.2 (length (found_keywords t))) 1)%Q.
Proof.
  intros Hs Hr t.
  unfold FraudPatternDetectionAgent.analyze, run_analyze,
    FraudPatternDetectionAgent.body.
  rewrite Hs, Hr, py_or_text. fold t. unfold bbind.
  destruct (bic_checks_text s r init_locals) as (st1 & E1 & R1 & S1).
  rewrite E1.
  destruct (keyword_checks_text t st1) as (st2 & E2 & R2 & S2).
  rewrite E2. eexists. split; [reflexivity|]. unfold score_dict.
  cbn [agent fraud_reasons risk_score]. split; [reflexivity|]. split.
  - rewrite R2, R1. cbn [init_locals l_fraud_reasons].
    rewrite app_nil_l, <- app_assoc. reflexivity.
  - apply py_min_ext. rewrite S2, S1. cbn [init_locals l_risk_score]. ring.
Qed.

(** ** The geographic scorer in closed form *)

Lemma country_of_text (s : string) (st : locals) :
  FraudGeographicRiskAgent.country_of (PStr s) st = (inr (country_code s), st).
Proof.
  unfold FraudGeographicRiskAgent.country_of, country_code, str_len, str_method,
    bbind, bret.
  destruct (6 <=? String.length s)%nat; reflexivity.
Qed.

Lemma geographic_closed_form (m : Message) (s r : string) :
  dict_get m "sender_bic" (PStr "") = PStr s ->
  dict_get m "receiver_bic" (PStr "") = PStr r ->
  let sc := country_code s in
  let rc := country_code r in
  let bonus := FraudGeographicRiskAgent.unusual_combination sc rc in
  exists res,
    FraudGeographicRiskAgent.analyze m = Ret res
    /\ agent res = FraudGeographicRiskAgent.name
    /\ fraud_reasons res
       = (reason_if (high_risk sc) ("High-risk sender country: " ++ sc)
          ++ reason_if (high_risk rc) ("High-risk receiver country: " ++ rc)
          ++ reason_if (medium_risk sc) ("Medium-risk sender country: " ++ sc)
          ++ reason_if (medium_risk rc) ("Medium-risk receiver country: " ++ rc)
          ++ reason_if bonus (FraudGeographicRiskAgent.unusual_reason sc rc))%list
    /\ (risk_score res
        == py_min (membership_score sc rc + weight_if bonus 0.3) 1)%Q.
Proof.
  intros Hs Hr sc rc bonus.
  unfold FraudGeographicRiskAgent.analyze, run_analyze,
    FraudGeographicRiskAgent.body.
  rewrite Hs, Hr. unfold try_except, bbind.
  rewrite !country_of_text. fold sc rc bonus.
  unfold membership_score.
  fold (high_risk sc) (high_risk rc) (medium_risk sc) (medium_risk rc).
  destruct (high_risk sc), (high_risk rc), (medium_risk sc), (medium_risk rc),
    bonus; cbn [when flag bret weight_if reason_if];
    (eexists; split; [reflexivity|]; unfold score_dict;
     cbn [agent fraud_reasons risk_score l_fraud_reasons l_risk_score init_locals];
     split; [reflexivity|]; split;
     [reflexivity | apply py_min_ext; ring]).
Qed.

(** ** Parsing the amount *)









(** ** The amount scorer *)


Lemma amount_returns (m : Message) :
  exists r, FraudAmountDetectionAgent.analyze m = Ret r.
Proof.
  unfold FraudAmountDetectionAgent.analyze, run_analyze,
    FraudAmountDetectionAgent.body, try_except, bbind.
  destruct (dict_get m "amount" (PStr "0")) as [|s]; cbn [iter_str braise bret].
  - eexists; reflexivity.
  - destruct (PyStr.float _) as [x|]; cbn [braise bret];
      [|eexists; reflexivity].
    repeat match goal with
           | |- context [when ?c _] => destruct c; cbn [when flag bret]
           end;
      eexists; reflexivity.
Qed.



(** ** The three scorers return a score in the unit interval *)

(** C6: on every record whose identifier codes are strings (missing ones
    read as empty), whatever the amount and the memo, each of the three
    scorers returns a result, and its score lies in [0, 1]. *)
Theorem scores_in_unit_interval (m : Message) :
  is_text (dict_get m "sender_bic" (PStr "")) = true ->
  is_text (dict_get m "receiver_bic" (PStr "")) = true ->
  exists ra rp rg,
    FraudAmountDetectionAgent.analyze m = Ret ra
    /\ FraudPatternDetectionAgent.analyze m = Ret rp
    /\ FraudGeographicRiskAgent.analyze m = Ret rg
    /\ in_unit_interval ra /\ in_unit_interval rp /\ in_unit_interval rg.
Proof.
  intros Hs Hr.
  destruct (dict_get m "sender_bic" (PStr "")) as [|s] eqn:Es; [discriminate|].
  destruct (dict_get m "receiver_bic" (PStr "")) as [|r] eqn:Er; [discriminate|].
  destruct (amount_returns m) as (ra & Ea).
  destruct (pattern_closed_form m s r Es Er) as (rp & Ep & _).
  destruct (geographic_closed_form m s r Es Er) as (rg & Eg & _).
  exists ra, rp, rg. repeat split; try assumption.
  all: eapply returned_scores_in_unit_interval; eauto.
Qed.

Lemma scores_in_unit_interval_witness :
  let m := mk [("message_id", PStr "TEST001"); ("amount", PStr "15000.00 USD");
               ("sender_bic", PStr "TESTUS33XXX");
               ("receiver_bic", PStr "FAKEGB22XXX");
               ("remittance_info", PStr "Urgent payment needed immediately")] in
  exists ra rp rg,
    FraudAmountDetectionAgent.analyze m = Ret ra
    /\ FraudPatternDetectionAgent.analyze m = Ret rp
    /\ FraudGeographicRiskAgent.analyze m = Ret rg
    /\ in_unit_interval ra /\ in_unit_interval rp /\ in_unit_interval rg.
Proof.
  intros m. apply (scores_in_unit_interval m); reflexivity.
Defined.

(** ** The pattern scorer *)

Lemma keyword_checks_empty (st : locals) :
  FraudPatternDetectionAgent.keyword_checks (PStr "") st = (inr tt, st).
Proof. reflexivity. Qed.












(** ** The geographic scorer *)

Lemma high_not_medium (c : string) : high_risk c = true -> medium_risk c = false.
Proof.
  unfold high_risk, medium_risk, FraudGeographicRiskAgent.member.
  intros H. apply bool_decide_eq_true in H.
  unfold FraudGeographicRiskAgent.high_risk_countries in H.
  apply elem_of_list_to_set in H.
  repeat (apply elem_of_cons in H as [-> | H]; [by vm_compute|]).
  by apply elem_of_nil in H.
Qed.

Lemma truthy_nonempty (s : string) : PyStr.truthy s = true <-> s <> "".
Proof. destruct s; cbn; split; congruence. Qed.

Lemma unusual_combination_spec (sc rc : string) :
  FraudGeographicRiskAgent.unusual_combination sc rc = true
  <-> sc <> "" /\ rc <> "" /\ one_sided_high sc rc.
Proof.
  unfold FraudGeographicRiskAgent.unusual_combination, one_sided_high.
  fold (high_risk sc) (high_risk rc) (medium_risk sc) (medium_risk rc).
  rewrite !andb_true_iff, orb_true_iff, !andb_true_iff, !negb_true_iff,
    !truthy_nonempty.
  tauto.
Qed.

Lemma unusual_reason_only_from_bonus (sc rc : string) (a b c d : bool) :
  ~ List.In (FraudGeographicRiskAgent.unusual_reason sc rc)
      (reason_if a ("High-risk sender country: " ++ sc)
       ++ reason_if b ("High-risk receiver country: " ++ rc)
       ++ reason_if c ("Medium-risk sender country: " ++ sc)
       ++ reason_if d ("Medium-risk receiver country: " ++ rc))%list.
Proof.
  unfold FraudGeographicRiskAgent.unusual_reason.
  destruct a, b, c, d; cbn; intuition discriminate.
Qed.




(** ** The coordinator *)

Lemma dict_set_fresh {V} (key : pyval) (value : V) (d : odict V) :
  key ∉ d.*1 -> dict_set key value d = (d ++ [(key, value)])%list.
Proof.
  induction d as [|[k v] d IH]; cbn; [reflexivity|].
  intros N. apply not_elem_of_cons in N as [N1 N2].
  destruct (decide (key = k)); [congruence|]. by rewrite IH.
Qed.

Lemma submit_all_distinct (self : ParallelizationPattern.t)
    (in_time : nat -> nat -> bool) (messages : list Message) :
  forall (i : nat) (d : odict (Message * list Future)),
    None ∉ message_ids messages ->
    NoDup (message_ids messages) ->
    (forall k, Some k ∈ message_ids messages -> k ∉ d.*1) ->
    ParallelizationPattern.submit_all self in_time i messages d
    = Ret (d ++ imap (fun j m =>
                        (dict_get m "message_id" PNone,
                         (m, futures_of self in_time (i + j) m)))
                     messages)%list.
Proof.
  induction messages as [|m messages IH]; intros i d Hp Hn Hd.
  - cbn. by rewrite app_nil_r.
  - cbn [ParallelizationPattern.submit_all]. unfold message_ids in *.
    cbn [map] in *.
    apply not_elem_of_cons in Hp as [Hm Hp].
    apply NoDup_cons in Hn as [Hk Hn].
    destruct (m !! "message_id") as [k|] eqn:Ek; [|congruence].
    rewrite dict_set_fresh by (apply Hd; left).
    rewrite (IH (S i)); [| exact Hp | exact Hn |].
    + rewrite imap_cons, <- app_assoc. cbn [app]. unfold dict_get at 2.
      rewrite Ek. cbn [default from_option id]. rewrite Nat.add_0_r.
      do 3 f_equal. apply imap_ext. intros j x _. cbn.
      by rewrite Nat.add_succ_r.
    + intros k' Hk'. rewrite fmap_app. cbn.
      apply not_elem_of_app. split; [apply Hd; by right|].
      apply not_elem_of_cons. split; [|apply not_elem_of_nil].
      intros ->. contradiction.
Qed.





(** The wait loop keeps the results of the futures that are done, in order,
    and nothing for the others. *)
Lemma wait_all_done (futures : list Future) (acc : list ScoreResult) :
  ParallelizationPattern.wait_all futures acc
  = (acc ++ omap done_result futures)%list.
Proof.
  revert acc; induction futures as [|[r|] futures IH]; intros acc; cbn.
  - by rewrite app_nil_r.
  - rewrite IH, <- app_assoc. reflexivity.
  - apply IH.
Qed.

(** C1 fails on the code: with the amount scorer's call timed out, the list
    handed to the aggregator has two results, none for the amount scorer,
    and the average is taken over two scores: the record is FRAUDULENT at
    50; with the zero slot the claim describes it would be CLEAN at 33.33. *)
Theorem timed_out_scorer_has_no_slot :
  let m := mk [("message_id", PStr "MSG009"); ("amount", PStr "50.00 USD");
               ("sender_bic", PStr "TESTUS33XXX");
               ("receiver_bic", PStr "FAKEGB22XXX");
               ("remittance_info", PStr "urgent")] in
  let self := ParallelizationPattern.init 8 in
  let amount_times_out := fun (_ j : nat) => negb (j =? 0)%nat in
  exists out,
    ParallelizationPattern.process_batch_parallel self amount_times_out [m]
    = Ret [out]
    /\ map agent (fraud_analysis out)
       = ["FraudPatternDetectionAgent"; "FraudGeographicRiskAgent"]
    /\ length (fraud_analysis out)
       <> length (ParallelizationPattern.list_of_agents self)
    /\ fraud_status out = "FRAUDULENT"
    /\ (fraud_score out == 50)%Q
    /\ let with_slot :=
         FraudAggAgent.aggregate_results
           (zero_slot amount_agent :: fraud_analysis out) in
       is_fraudulent with_slot = false
       /\ (confidence with_slot == 33.33)%Q.
Proof.
  intros m self amount_times_out.
  exists (annotated self amount_times_out 0 m).
  split; [vm_compute; reflexivity|].
  split; [vm_compute; reflexivity|]. split; [vm_compute; discriminate|].
  split; [vm_compute; reflexivity|]. split; [vm_compute; reflexivity|].
  split; vm_compute; reflexivity.
Qed.

(** * Further properties *)

(** ** Rounding and the aggregator's ranges *)

Lemma round_half_even_lower (x : Q) (a : Z) :
  (inject_Z a <= x)%Q -> (a <= round_half_even x)%Z.
Proof.
  intros H. apply Qfloor_resp_le in H. rewrite Qfloor_Z in H.
  unfold round_half_even.
  destruct (Qcompare _ _); [destruct (Z.even _)| |]; lia.
Qed.

Lemma round_half_even_upper (x : Q) (b : Z) :
  (x <= inject_Z b)%Q -> (round_half_even x <= b)%Z.
Proof.
  intros H. pose proof (Qfloor_resp_le _ _ H) as F. rewrite Qfloor_Z in F.
  pose proof (Qfloor_le x) as L.
  unfold round_half_even.
  destruct (Z.eq_dec (Qfloor x) b) as [E|N].
  - assert (C : ((x - inject_Z (Qfloor x)) ?= (1 # 2))%Q = Lt).
    { apply (proj1 (Qlt_alt _ _)). rewrite E in *. lra. }
    rewrite C. lia.
  - destruct (Qcompare _ _); [destruct (Z.even _)| |]; lia.
Qed.

Lemma inject_Z_pos (p : Z) : (0 < p)%Z -> (0 < inject_Z p)%Q.
Proof. intros H. unfold Qlt. cbn. lia. Qed.

Lemma py_round_range (x : Q) (ndigits : nat) (a b : Z) :
  (inject_Z a <= x <= inject_Z b)%Q ->
  (inject_Z a <= py_round x ndigits <= inject_Z b)%Q.
Proof.
  intros [La Lb]. unfold py_round.
  set (p := (10 ^ Z.of_nat ndigits)%Z).
  assert (P : (0 < p)%Z) by (apply Z.pow_pos_nonneg; lia).
  assert (Pq : (0 < inject_Z p)%Q) by (apply inject_Z_pos; exact P).
  split.
  - apply Qle_shift_div_l; [exact Pq|].
    rewrite <- inject_Z_mult, <- Zle_Qle.
    apply round_half_even_lower. rewrite inject_Z_mult.
    apply Qmult_le_compat_r; [exact La | lra].
  - apply Qle_shift_div_r; [exact Pq|].
    rewrite <- inject_Z_mult, <- Zle_Qle.
    apply round_half_even_upper. rewrite inject_Z_mult.
    apply Qmult_le_compat_r; [exact Lb | lra].
Qed.

Lemma sum_unit_scores (results : list ScoreResult) :
  Forall in_unit_interval results ->
  (0 <= fold_right Qplus 0 (map risk_score results)
   <= inject_Z (Z.of_nat (length results)))%Q.
Proof.
  induction 1 as [|r results [L U] _ [IL IU]]; cbn [map fold_right length].
  - split; apply Qle_refl.
  - rewrite Nat2Z.inj_succ, <- Z.add_1_r, inject_Z_plus.
    change (inject_Z 1) with 1%Q. lra.
Qed.

Lemma mean_unit_scores (results : list ScoreResult) :
  results <> [] ->
  Forall in_unit_interval results ->
  (0 <= mean_score results <= 1)%Q.
Proof.
  intros NE H. destruct (sum_unit_scores results H) as [L U].
  unfold mean_score.
  assert (N : (0 < inject_Z (Z.of_nat (length results)))%Q).
  { apply inject_Z_pos. destruct results; [congruence | cbn [length]; lia]. }
  split.
  - apply Qle_shift_div_l; [exact N | lra].
  - apply Qle_shift_div_r; [exact N | lra].
Qed.

Lemma verdict_by_mean (results : list ScoreResult) :
  results <> [] ->
  is_fraudulent (FraudAggAgent.aggregate_results results)
  = Qle_bool 0.5 (mean_score results)
  /\ confidence (FraudAggAgent.aggregate_results results)
     = py_round (mean_score results * 100)%Q 2
  /\ total_risk_score (FraudAggAgent.aggregate_results results)
     = py_round (mean_score results) 3.
Proof.
  intros NE. destruct results as [|r results]; [congruence|].
  unfold FraudAggAgent.aggregate_results, mean_score.
  cbn [is_fraudulent confidence total_risk_score].
  set (n := inject_Z (Z.of_nat (length (r :: results)))).
  pose proof (py_sum_fold_right (map risk_score (r :: results))) as E.
  repeat split.
  - unfold FraudAggAgent.threshold. apply Qleb_comp; [reflexivity|].
    rewrite E. reflexivity.
  - apply py_round_ext. rewrite E. reflexivity.
  - apply py_round_ext. rewrite E. reflexivity.
Qed.

(** X1: when every score handed to the aggregator lies in [0, 1], the
    verdict's confidence lies in [0, 100] and its total risk score in
    [0, 1], for the empty sequence as well. *)
Theorem aggregate_ranges (results : list ScoreResult) :
  Forall in_unit_interval results ->
  let verdict := FraudAggAgent.aggregate_results results in
  (0 <= confidence verdict <= 100)%Q
  /\ (0 <= total_risk_score verdict <= 1)%Q.
Proof.
  intros H verdict.
  destruct (decide (results = [])) as [->|NE].
  - cbn. lra.
  - destruct (verdict_by_mean results NE) as (_ & C & T).
    destruct (mean_unit_scores results NE H) as [L U].
    subst verdict. rewrite C, T. split.
    + apply (py_round_range _ 2 0 100). unfold inject_Z. lra.
    + apply (py_round_range _ 3 0 1). unfold inject_Z. lra.
Qed.

Lemma aggregate_ranges_witness :
  let results := [score_dict "A" 1 ["x"]; score_dict "B" 0.25 []] in
  (0 <= confidence (FraudAggAgent.aggregate_results results) <= 100)%Q
  /\ (0 <= total_risk_score (FraudAggAgent.aggregate_results results) <= 1)%Q.
Proof.
  intros results. apply (aggregate_ranges results).
  repeat constructor; vm_compute; discriminate.
Defined.

(** X2: the verdict and the confidence agree around the threshold: a
    fraudulent verdict has confidence at least 50, a non-fraudulent one at
    most 50 (an average just below one half rounds to 50.0). *)
Theorem verdict_confidence_threshold (results : list ScoreResult) :
  let verdict := FraudAggAgent.aggregate_results results in
  if is_fraudulent verdict then (50 <= confidence verdict)%Q
  else (confidence verdict <= 50)%Q.
Proof.
  intros verdict. destruct (decide (results = [])) as [->|NE].
  - cbn. lra.
  - destruct (verdict_by_mean results NE) as (F & C & _).
    subst verdict. rewrite F, C.
    destruct (Qle_bool 0.5 (mean_score results)) eqn:B.
    + apply Qle_bool_iff in B.
      apply (py_round_range _ 2 50 (Z.max 50 (1 + Qfloor (mean_score results * 100)))).
      split; [unfold inject_Z; lra|].
      apply Qlt_le_weak.
      eapply Qlt_le_trans; [apply Qlt_floor|].
      rewrite <- Zle_Qle. lia.
    + assert (L : (mean_score results < 0.5)%Q).
      { apply Qnot_le_lt. intros L. apply Qle_bool_iff in L. congruence. }
      apply (py_round_range _ 2 (Z.min 50 (Qfloor (mean_score results * 100))) 50).
      split; [|unfold inject_Z; lra].
      eapply Qle_trans; [|apply Qfloor_le].
      rewrite <- Zle_Qle. lia.
Qed.

(** ** The coordinator on arbitrary batches *)

Lemma submit_all_missing_id (self : ParallelizationPattern.t)
    (in_time : nat -> nat -> bool) (messages : list Message) :
  forall (i : nat) (d : odict (Message * list Future)),
    None ∈ message_ids messages ->
    ParallelizationPattern.submit_all self in_time i messages d = Raise KeyError.
Proof.
  induction messages as [|m messages IH]; intros i d H.
  - by apply elem_of_nil in H.
  - cbn [ParallelizationPattern.submit_all]. unfold message_ids in H.
    cbn [map] in H. destruct (m !! "message_id") as [k|] eqn:E; [|reflexivity].
    apply IH. apply elem_of_cons in H as [H|H]; [discriminate | exact H].
Qed.

(** X3: a single record without a message identifier, at any position of
    the batch, makes the coordinator raise [KeyError]: no record of the
    batch is returned. *)
Theorem batch_with_missing_id_aborts (self : ParallelizationPattern.t)
    (in_time : nat -> nat -> bool) (messages : list Message) :
  None ∈ message_ids messages ->
  ParallelizationPattern.process_batch_parallel self in_time messages
  = Raise KeyError.
Proof.
  intros H. unfold ParallelizationPattern.process_batch_parallel.
  by rewrite submit_all_missing_id.
Qed.

Lemma batch_with_missing_id_aborts_witness :
  ParallelizationPattern.process_batch_parallel
    (ParallelizationPattern.init 8) (fun _ _ => true)
    [mk [("message_id", PStr "MSG001"); ("amount", PStr "10.00 USD")];
     mk [("amount", PStr "20.00 USD"); ("sender_bic", PStr "CHASUS33XXX")];
     mk [("message_id", PStr "MSG003"); ("amount", PStr "30.00 USD")]]
  = Raise KeyError.
Proof.
  apply batch_with_missing_id_aborts.
  apply (bool_decide_unpack _). vm_compute. exact I.
Defined.

Lemma submit_all_register (self : ParallelizationPattern.t)
    (in_time : nat -> nat -> bool) (messages : list Message) :
  forall (i : nat) (d : odict (Message * list Future)),
    None ∉ message_ids messages ->
    ParallelizationPattern.submit_all self in_time i messages d
    = Ret (register self in_time i messages d).
Proof.
  induction messages as [|m messages IH]; intros i d H; [reflexivity|].
  cbn [ParallelizationPattern.submit_all register].
  unfold message_ids in H. cbn [map] in H.
  apply not_elem_of_cons in H as [H1 H2].
  unfold dict_get. destruct (m !! "message_id") as [k|]; [|congruence].
  cbn [default from_option id]. by apply IH.
Qed.

Lemma dict_set_keys {V} (key : pyval) (value : V) (d : odict V) :
  (dict_set key value d).*1
  = if decide (key ∈ d.*1) then d.*1 else (d.*1 ++ [key])%list.
Proof.
  induction d as [|[k v] d IH]; cbn.
  - destruct (decide (key ∈ [])) as [H|_]; [by apply elem_of_nil in H|].
    reflexivity.
  - destruct (decide (key = k)) as [->|N]; cbn.
    + destruct (decide (k ∈ k :: d.*1)) as [_|H]; [reflexivity|].
      exfalso. apply H. left.
    + rewrite IH. destruct (decide (key ∈ d.*1)) as [H|H].
      * destruct (decide (key ∈ k :: d.*1)) as [_|H']; [reflexivity|].
        exfalso. apply H'. by right.
      * destruct (decide (key ∈ k :: d.*1)) as [H'|_]; [|reflexivity].
        apply elem_of_cons in H' as [?|?]; contradiction.
Qed.

Lemma dict_set_elem {V} (key : pyval) (value : V) (d : odict V) (e : pyval * V) :
  NoDup d.*1 ->
  e ∈ dict_set key value d <-> e = (key, value) \/ (e ∈ d /\ e.1 <> key).
Proof.
  induction d as [|[k v] d IH]; cbn; intros ND.
  - rewrite list_elem_of_singleton, elem_of_nil. tauto.
  - apply NoDup_cons in ND as [Nk ND].
    destruct (decide (key = k)) as [->|N].
    + rewrite !elem_of_cons. split.
      * intros [->|H]; [by left|]. right. split; [by right|].
        intros E. apply Nk. rewrite <- E. apply list_elem_of_fmap.
        exists e. split; [reflexivity | exact H].
      * intros [->|[[->|H] E]]; [by left | by cbn in E | by right].
    + rewrite !elem_of_cons, (IH ND). split.
      * intros [->|[->|[H E]]]; [right; split; [by left | by cbn; congruence]
                                | by left | right; split; [by right | exact E]].
      * intros [->|[[->|H] E]]; [right; by left | by left | right; right; by split].
Qed.

Lemma dict_set_nodup {V} (key : pyval) (value : V) (d : odict V) :
  NoDup d.*1 -> NoDup (dict_set key value d).*1.
Proof.
  intros ND. rewrite dict_set_keys.
  destruct (decide (key ∈ d.*1)) as [H|H]; [exact ND|].
  apply NoDup_app. split; [exact ND|]. split.
  - intros x Hx Hk. apply list_elem_of_singleton in Hk. by subst.
  - apply NoDup_singleton.
Qed.

Lemma register_nodup (self : ParallelizationPattern.t)
    (in_time : nat -> nat -> bool) (messages : list Message) :
  forall i d, NoDup d.*1 -> NoDup (register self in_time i messages d).*1.
Proof.
  induction messages as [|m messages IH]; intros i d ND; [exact ND|].
  cbn [register]. apply IH, dict_set_nodup, ND.
Qed.

(** The entries of the dict after the submission loop: an earlier entry
    whose key no record of the batch carries, or the entry of the last
    record of the batch that carries its key. *)
Lemma register_elem (self : ParallelizationPattern.t)
    (in_time : nat -> nat -> bool) (messages : list Message) :
  forall i d e,
    NoDup d.*1 ->
    e ∈ register self in_time i messages d ->
    (e ∈ d /\ forall m, m ∈ messages -> id_of m <> e.1)
    \/ exists j m,
         messages !! j = Some m
         /\ e = (id_of m, (m, futures_of self in_time (i + j) m))
         /\ last_with_id messages j (id_of m).
Proof.
  induction messages as [|m messages IH]; intros i d e ND H.
  - left. split; [exact H|]. intros m Hm. by apply elem_of_nil in Hm.
  - cbn [register] in H.
    apply IH in H; [|apply dict_set_nodup, ND].
    destruct H as [[H L]|(j & m' & Hj & -> & L)].
    + apply dict_set_elem in H; [|exact ND].
      destruct H as [->|[H N]].
      * right. exists 0%nat, m. rewrite Nat.add_0_r.
        split; [reflexivity|]. split; [reflexivity|].
        intros [|j'] m' Hlt Hm'; [lia|]. cbn in Hm'.
        apply L. eapply list_elem_of_lookup_2, Hm'.
      * left. split; [exact H|]. intros m' Hm'.
        apply elem_of_cons in Hm' as [->|Hm'];
          [unfold id_of; congruence | by apply L].
    + right. exists (S j), m'. rewrite Nat.add_succ_r.
      split; [exact Hj|]. split; [reflexivity|].
      intros [|j'] m'' Hlt Hm''; [lia|]. cbn in Hm''.
      apply (L j' m''); [lia | exact Hm''].
Qed.

Lemma first_occurrences_seen (seen seen' ks : list pyval) :
  (forall k, k ∈ seen <-> k ∈ seen') ->
  first_occurrences seen ks = first_occurrences seen' ks.
Proof.
  revert seen seen'. induction ks as [|k ks IH]; intros seen seen' E;
    [reflexivity|]. cbn.
  destruct (decide (k ∈ seen)) as [H|H], (decide (k ∈ seen')) as [H'|H'].
  - by apply IH.
  - exfalso. apply H', E, H.
  - exfalso. apply H, E, H'.
  - f_equal. apply IH. intros k'. rewrite !elem_of_cons, E. reflexivity.
Qed.

Lemma register_keys (self : ParallelizationPattern.t)
    (in_time : nat -> nat -> bool) (messages : list Message) :
  forall i d,
    (register self in_time i messages d).*1
    = (d.*1 ++ first_occurrences d.*1 (map id_of messages))%list.
Proof.
  induction messages as [|m messages IH]; intros i d.
  - cbn. by rewrite app_nil_r.
  - cbn [register map first_occurrences]. rewrite IH, dict_set_keys.
    fold (id_of m).
    destruct (decide (id_of m ∈ d.*1)) as [H|H]; [reflexivity|].
    rewrite <- app_assoc. cbn [app]. do 2 f_equal.
    apply first_occurrences_seen. intros k.
    rewrite elem_of_app, !elem_of_cons, elem_of_nil. tauto.
Qed.

Lemma process_register (self : ParallelizationPattern.t)
    (in_time : nat -> nat -> bool) (messages : list Message) :
  None ∉ message_ids messages ->
  ParallelizationPattern.process_batch_parallel self in_time messages
  = Ret (map (fun item => ParallelizationPattern.collect (snd item))
             (register self in_time 0 messages [])).
Proof.
  intros H. unfold ParallelizationPattern.process_batch_parallel.
  by rewrite submit_all_register.
Qed.

(** X4: on a batch whose records all carry an identifier, repeated or not,
    the coordinator returns one record per distinct identifier, in the order
    in which the identifiers first occur, and the record returned for an
    identifier is the last input record that carries it, annotated from its
    own scorer calls. *)
Theorem batch_with_repeated_ids (self : ParallelizationPattern.t)
    (in_time : nat -> nat -> bool) (messages : list Message) :
  None ∉ message_ids messages ->
  exists out,
    ParallelizationPattern.process_batch_parallel self in_time messages = Ret out
    /\ map (fun o => id_of (message o)) out
       = first_occurrences [] (map id_of messages)
    /\ forall o, o ∈ out ->
         exists j,
           messages !! j = Some (message o)
           /\ o = annotated self in_time j (message o)
           /\ last_with_id messages j (id_of (message o)).
Proof.
  intros H. rewrite (process_register self in_time messages H).
  eexists. split; [reflexivity|].
  set (d := register self in_time 0 messages []).
  assert (E : forall e, e ∈ d ->
            exists j m, messages !! j = Some m
              /\ e = (id_of m, (m, futures_of self in_time j m))
              /\ last_with_id messages j (id_of m)).
  { intros e He. apply register_elem in He; [|apply NoDup_nil_2].
    destruct He as [[He _]|He]; [by apply elem_of_nil in He | exact He]. }
  split.
  - pose proof (register_keys self in_time messages 0 []) as K.
    change ([].*1) with (@nil pyval) in K. cbn [app] in K. fold d in K.
    rewrite <- K, List.map_map. apply List.map_ext_in. intros e He.
    apply list_elem_of_In, E in He as (j & m & _ & -> & _). reflexivity.
  - intros o Ho. apply list_elem_of_fmap in Ho as (e & -> & He).
    apply E in He as (j & m & Hj & -> & L). exists j. cbn.
    repeat split; assumption.
Qed.

Lemma batch_with_repeated_ids_witness :
  let a := mk [("message_id", PStr "MSG001"); ("amount", PStr "10.00 USD")] in
  let b := mk [("message_id", PStr "MSG002"); ("amount", PStr "20.00 USD")] in
  let c := mk [("message_id", PStr "MSG001"); ("amount", PStr "30.00 USD")] in
  exists out,
    ParallelizationPattern.process_batch_parallel
      (ParallelizationPattern.init 8) (fun _ _ => true) [a; b; c] = Ret out
    /\ map (fun o => id_of (message o)) out = [PStr "MSG001"; PStr "MSG002"].
Proof.
  intros a b c.
  destruct (batch_with_repeated_ids (ParallelizationPattern.init 8)
              (fun _ _ => true) [a; b; c]) as (out & E & K & _).
  - apply (bool_decide_unpack _). vm_compute. exact I.
  - exists out. split; [exact E|]. rewrite K. vm_compute. reflexivity.
Defined.

Lemma process_distinct (self : ParallelizationPattern.t)
    (in_time : nat -> nat -> bool) (messages : list Message) :
  None ∉ message_ids messages ->
  NoDup (message_ids messages) ->
  ParallelizationPattern.process_batch_parallel self in_time messages
  = Ret (imap (annotated self in_time) messages).
Proof.
  intros Hp Hn. unfold ParallelizationPattern.process_batch_parallel.
  rewrite (submit_all_distinct self in_time messages 0 [] Hp Hn)
    by (intros; apply not_elem_of_nil).
  cbn [app]. f_equal. change (map ?f ?l) with (f <$> l). rewrite fmap_imap.
  apply imap_ext. intros j m _. reflexivity.
Qed.

Lemma futures_all_late (self : ParallelizationPattern.t)
    (in_time : nat -> nat -> bool) (i : nat) (m : Message) :
  (forall j, in_time i j = false) ->
  omap done_result (futures_of self in_time i m) = [].
Proof.
  intros H. unfold futures_of.
  generalize (ParallelizationPattern.list_of_agents self). intros agents.
  assert (G : forall (f : nat -> nat) (l : list Agent),
            omap done_result
              (imap (fun j agent =>
                       ParallelizationPattern.submit (in_time i (f j)) m agent) l)
            = []).
  { intros f l. revert f. induction l as [|a l IH]; intros f; [reflexivity|].
    rewrite imap_cons. cbn [omap list_omap]. rewrite H. cbn.
    apply (IH (fun j => f (S j))). }
  apply (G (fun j => j)).
Qed.

(** X5: when every scorer call of a record times out, the record is still
    returned: its fraud analysis is empty and it is marked CLEAN with score 0
    and no reasons. *)
Theorem record_with_all_calls_timed_out (self : ParallelizationPattern.t)
    (in_time : nat -> nat -> bool) (messages : list Message)
    (i : nat) (m : Message) :
  None ∉ message_ids messages ->
  NoDup (message_ids messages) ->
  messages !! i = Some m ->
  (forall j, in_time i j = false) ->
  exists out,
    ParallelizationPattern.process_batch_parallel self in_time messages = Ret out
    /\ out !! i = Some (unscored m).
Proof.
  intros Hp Hn Hi Ht. rewrite (process_distinct self in_time messages Hp Hn).
  eexists. split; [reflexivity|].
  rewrite list_lookup_imap, Hi. cbn. f_equal.
  unfold annotated, ParallelizationPattern.collect. cbn [fst snd].
  rewrite wait_all_done, (futures_all_late self in_time i m Ht). reflexivity.
Qed.

Lemma record_with_all_calls_timed_out_witness :
  let a := mk [("message_id", PStr "MSG001"); ("amount", PStr "10.00 USD")] in
  let b := mk [("message_id", PStr "MSG002"); ("amount", PStr "2000000 USD");
               ("sender_bic", PStr "TESTIRXX"); ("receiver_bic", PStr "TESTIRXX")] in
  exists out,
    ParallelizationPattern.process_batch_parallel
      (ParallelizationPattern.init 8) (fun i _ => (i =? 0)%nat) [a; b] = Ret out
    /\ out !! 1%nat = Some (unscored b).
Proof.
  intros a b.
  apply (record_with_all_calls_timed_out (ParallelizationPattern.init 8)
           (fun i _ => (i =? 0)%nat) [a; b] 1 b).
  - apply (bool_decide_unpack _). vm_compute. exact I.
  - apply (bool_decide_unpack _). vm_compute. exact I.
  - reflexivity.
  - intros j. reflexivity.
Defined.

Lemma run_analyze_fields (name : string) (b : Body unit) (r : ScoreResult) :
  run_analyze name b = Ret r -> agent r = name /\ error r = None.
Proof.
  unfold run_analyze. destruct (b init_locals) as [[e|[]] st]; [discriminate|].
  intros [= <-]. split; reflexivity.
Qed.

Lemma default_agents_analyze (w : positive) (a : Agent) (m : Message) :
  a ∈ ParallelizationPattern.list_of_agents (ParallelizationPattern.init w) ->
  exists b, analyze a m = run_analyze (class_name a) b /\ grows b.
Proof.
  cbn [ParallelizationPattern.list_of_agents ParallelizationPattern.init].
  rewrite !elem_of_cons, elem_of_nil. intros [->|[->|[->|[]]]]; eexists.
  - split; [reflexivity | apply amount_body_grows].
  - split; [reflexivity | apply pattern_body_grows].
  - split; [reflexivity | apply geographic_body_grows].
Qed.

(** A call of one of the three agents never raises: it yields the agent's
    result, or a zero slot under the agent's name. *)
Lemma process_message_default (w : positive) (m : Message) (a : Agent) :
  a ∈ ParallelizationPattern.list_of_agents (ParallelizationPattern.init w) ->
  let r := ParallelizationPattern._process_message m a in
  agent r = class_name a /\ in_unit_interval r /\ zero_when_failed r.
Proof.
  intros Ha. destruct (default_agents_analyze w a m Ha) as (b & E & G).
  cbv zeta. unfold ParallelizationPattern._process_message. rewrite E.
  destruct (run_analyze (class_name a) b) as [r|e] eqn:R.
  - destruct (run_analyze_fields _ _ _ R) as [N Er].
    pose proof (run_analyze_unit _ _ _ G R) as U.
    unfold ParallelizationPattern.set_message_id, in_unit_interval,
      zero_when_failed. cbn [agent risk_score error fraud_reasons].
    split; [exact N|]. split; [exact U|].
    rewrite Er. intros [? ?]. discriminate.
  - unfold in_unit_interval, zero_when_failed.
    cbn [agent risk_score error fraud_reasons].
    split; [reflexivity|]. split; [lra|]. intros _. split; reflexivity.
Qed.

Lemma done_results_from_agents (self : ParallelizationPattern.t)
    (in_time : nat -> nat -> bool) (i : nat) (m : Message) (r : ScoreResult) :
  r ∈ omap done_result (futures_of self in_time i m) ->
  exists a, a ∈ ParallelizationPattern.list_of_agents self
            /\ r = ParallelizationPattern._process_message m a.
Proof.
  intros H. apply list_elem_of_omap in H as (f & Hf & D).
  unfold futures_of in Hf.
  apply elem_of_lookup_imap in Hf as (j & a & -> & Ha).
  exists a. split; [eapply list_elem_of_lookup_2, Ha|].
  unfold ParallelizationPattern.submit in D.
  destruct (in_time i j); cbn in D; congruence.
Qed.

Lemma done_results_length (self : ParallelizationPattern.t)
    (in_time : nat -> nat -> bool) (i : nat) (m : Message) :
  (length (omap done_result (futures_of self in_time i m))
   <= length (ParallelizationPattern.list_of_agents self))%nat.
Proof.
  unfold futures_of. rewrite <- (length_imap
    (fun j agent => ParallelizationPattern.submit (in_time i j) m agent)).
  generalize (imap (fun j agent =>
    ParallelizationPattern.submit (in_time i j) m agent)
    (ParallelizationPattern.list_of_agents self)).
  intros l. induction l as [|[r|] l IH]; cbn; lia.
Qed.

Lemma collect_fields (m : Message) (futures : list Future) :
  let o := ParallelizationPattern.collect (m, futures) in
  let results := omap done_result futures in
  let verdict := FraudAggAgent.aggregate_results results in
  message o = m
  /\ fraud_analysis o = results
  /\ fraud_score o = confidence verdict
  /\ fraud_status o = (if is_fraudulent verdict then "FRAUDULENT" else "CLEAN")
  /\ msg_fraud_reasons o = tagged_reasons results.
Proof.
  cbv zeta. unfold ParallelizationPattern.collect. cbn [fst snd].
  rewrite wait_all_done. cbn [app message fraud_analysis fraud_score
    fraud_status msg_fraud_reasons].
  repeat split.
  destruct (omap done_result futures) as [|r rs]; [reflexivity|].
  apply (outer_reasons_loop (r :: rs) []).
Qed.

Lemma annotated_consistent (w : positive) (in_time : nat -> nat -> bool)
    (i : nat) (m : Message) :
  consistent_annotation (annotated (ParallelizationPattern.init w) in_time i m).
Proof.
  unfold annotated.
  destruct (collect_fields m (futures_of (ParallelizationPattern.init w) in_time i m))
    as (_ & A & S & T & R).
  set (results := omap done_result _) in *.
  assert (U : Forall in_unit_interval results).
  { apply Forall_forall. intros r Hr.
    apply done_results_from_agents in Hr as (a & Ha & ->).
    apply (process_message_default w m a Ha). }
  unfold consistent_annotation. rewrite A, S, T, R.
  split; [|split; [|split; [|split; [exact U | reflexivity]]]].
  - destruct (decide (results = [])) as [E|NE]; [rewrite E; cbn; lra|].
    destruct (verdict_by_mean results NE) as (_ & C & _).
    destruct (mean_unit_scores results NE U) as [L H].
    rewrite C. apply (py_round_range _ 2 0 100). unfold inject_Z. lra.
  - destruct (decide (results = [])) as [E|NE].
    { rewrite E. cbn. right. split; [reflexivity | lra]. }
    destruct (verdict_by_mean results NE) as (F & C & _). rewrite F, C.
    destruct (Qle_bool 0.5 (mean_score results)) eqn:B; [left | right];
      (split; [reflexivity|]).
    + apply Qle_bool_iff in B.
      apply (py_round_range _ 2 50 (Z.max 50 (1 + Qfloor (mean_score results * 100)))).
      split; [unfold inject_Z; lra|].
      apply Qlt_le_weak. eapply Qlt_le_trans; [apply Qlt_floor|].
      rewrite <- Zle_Qle. lia.
    + assert (L : (mean_score results < 0.5)%Q).
      { apply Qnot_le_lt. intros L. apply Qle_bool_iff in L. congruence. }
      apply (py_round_range _ 2 (Z.min 50 (Qfloor (mean_score results * 100))) 50).
      split; [|unfold inject_Z; lra].
      eapply Qle_trans; [|apply Qfloor_le]. rewrite <- Zle_Qle. lia.
  - apply (done_results_length (ParallelizationPattern.init w)).
Qed.

(** X6: with the three registered agents, on every batch whose records all
    carry an identifier and under every schedule of timeouts, each returned
    record has a fraud score in [0, 100], is FRAUDULENT with a score of at
    least 50 or CLEAN with a score of at most 50, holds at most three
    results, each with a score in [0, 1], and its fraud reasons are the
    reasons of those results, each tagged with its scorer. *)
Theorem returned_records_are_consistent (w : positive)
    (in_time : nat -> nat -> bool) (messages : list Message) :
  None ∉ message_ids messages ->
  exists out,
    ParallelizationPattern.process_batch_parallel
      (ParallelizationPattern.init w) in_time messages = Ret out
    /\ Forall consistent_annotation out.
Proof.
  intros H. rewrite (process_register _ in_time messages H).
  eexists. split; [reflexivity|].
  apply Forall_forall. intros o Ho.
  apply list_elem_of_fmap in Ho as (e & -> & He).
  apply register_elem in He; [|apply NoDup_nil_2].
  destruct He as [[He _]|(j & m & _ & -> & _)]; [by apply elem_of_nil in He|].
  cbn [snd]. apply (annotated_consistent w in_time (0 + j) m).
Qed.

Lemma returned_records_are_consistent_witness :
  exists out,
    ParallelizationPattern.process_batch_parallel
      (ParallelizationPattern.init 8) (fun i j => negb (i =? j)%nat)
      [mk [("message_id", PStr "MSG001"); ("amount", PStr "75000.00 USD");
           ("sender_bic", PStr "TESTIRXX"); ("receiver_bic", PNone)];
       mk [("message_id", PStr "MSG001"); ("amount", PNone)]]
    = Ret out
    /\ Forall consistent_annotation out.
Proof.
  apply returned_records_are_consistent.
  apply (bool_decide_unpack _). vm_compute. exact I.
Defined.

Lemma futures_all_in_time (self : ParallelizationPattern.t)
    (in_time : nat -> nat -> bool) (i : nat) (m : Message) :
  (forall j, in_time i j = true) ->
  omap done_result (futures_of self in_time i m)
  = map (ParallelizationPattern._process_message m)
        (ParallelizationPattern.list_of_agents self).
Proof.
  intros H. unfold futures_of.
  generalize (ParallelizationPattern.list_of_agents self). intros agents.
  assert (G : forall (f : nat -> nat) (l : list Agent),
            omap done_result
              (imap (fun j agent =>
                       ParallelizationPattern.submit (in_time i (f j)) m agent) l)
            = map (ParallelizationPattern._process_message m) l).
  { intros f l. revert f. induction l as [|a l IH]; intros f; [reflexivity|].
    rewrite imap_cons. cbn [omap list_omap map]. rewrite H. cbn.
    f_equal. apply (IH (fun j => f (S j))). }
  apply (G (fun j => j)).
Qed.

(** X7: failures of [analyze] are isolated.  With the three registered
    agents, a record all of whose calls are done in time has exactly three
    results, named after the amount, pattern and geographic agents in that
    order, whatever its fields hold; each score is in [0, 1], and a result
    that records an error has score 0 and no reasons. *)
Theorem record_with_all_calls_in_time (w : positive)
    (in_time : nat -> nat -> bool) (messages : list Message)
    (i : nat) (m : Message) :
  None ∉ message_ids messages ->
  NoDup (message_ids messages) ->
  messages !! i = Some m ->
  (forall j, in_time i j = true) ->
  exists out o,
    ParallelizationPattern.process_batch_parallel
      (ParallelizationPattern.init w) in_time messages = Ret out
    /\ out !! i = Some o
    /\ message o = m
    /\ map agent (fraud_analysis o)
       = ["FraudAmountDetectionAgent"; "FraudPatternDetectionAgent";
          "FraudGeographicRiskAgent"]
    /\ Forall in_unit_interval (fraud_analysis o)
    /\ Forall zero_when_failed (fraud_analysis o).
Proof.
  intros Hp Hn Hi Ht. rewrite (process_distinct _ in_time messages Hp Hn).
  eexists. eexists. split; [reflexivity|].
  rewrite list_lookup_imap, Hi. split; [reflexivity|].
  unfold annotated.
  destruct (collect_fields m (futures_of (ParallelizationPattern.init w) in_time i m))
    as (M & A & _). rewrite M, A, (futures_all_in_time _ in_time i m Ht).
  split; [reflexivity|].
  cbn [ParallelizationPattern.list_of_agents ParallelizationPattern.init map].
  assert (P : forall a,
            a ∈ [amount_agent; pattern_agent; geographic_agent] ->
            let r := ParallelizationPattern._process_message m a in
            agent r = class_name a /\ in_unit_interval r /\ zero_when_failed r)
    by (intros a Ha; apply (process_message_default w m a Ha)).
  destruct (P amount_agent) as (N1 & U1 & Z1); [by left|].
  destruct (P pattern_agent) as (N2 & U2 & Z2); [by right; left|].
  destruct (P geographic_agent) as (N3 & U3 & Z3); [by right; right; left|].
  rewrite N1, N2, N3. split; [reflexivity|].
  split; repeat (constructor; [assumption|]); constructor.
Qed.

Lemma record_with_all_calls_in_time_witness :
  let a := mk [("message_id", PStr "MSG001"); ("amount", PStr "10.00 USD");
               ("sender_bic", PNone); ("receiver_bic", PStr "CHASUS33")] in
  exists out o,
    ParallelizationPattern.process_batch_parallel
      (ParallelizationPattern.init 8) (fun _ _ => true) [a] = Ret out
    /\ out !! 0%nat = Some o
    /\ map agent (fraud_analysis o)
       = ["FraudAmountDetectionAgent"; "FraudPatternDetectionAgent";
          "FraudGeographicRiskAgent"].
Proof.
  intros a.
  destruct (record_with_all_calls_in_time 8 (fun _ _ => true) [a] 0 a)
    as (out & o & E & L & _ & N & _).
  - apply (bool_decide_unpack _). vm_compute. exact I.
  - apply (bool_decide_unpack _). vm_compute. exact I.
  - reflexivity.
  - reflexivity.
  - exists out, o. repeat split; assumption.
Defined.

(** ** More on the three scorers *)

Lemma multiple_of_1000_is_whole (x : Q) :
  Qeq_bool (py_mod x 1000) 0 = true -> Qeq_bool (py_mod x 1) 0 = true.
Proof.
  intros H. apply Qeq_bool_iff in H. apply Qeq_bool_iff.
  unfold py_mod in *.
  generalize dependent (Qfloor (x / 1000)). intros k H.
  assert (E : (x == inject_Z (1000 * k))%Q).
  { rewrite inject_Z_mult. change (inject_Z 1000) with 1000%Q. lra. }
  assert (F : Qfloor (x / 1) = (1000 * k)%Z).
  { rewrite <- (Qfloor_Z (1000 * k)). apply Qfloor_comp. rewrite E. field. }
  rewrite F, E. ring.
Qed.

(** X8: the amount scorer always returns, its score is never above 0.5
    (the round-amount rule and the unusual-precision rule never fire
    together, so the clamp at 1.0 is never reached), and it gives at most
    two reasons. *)
Theorem amount_score_at_most_half (m : Message) :
  exists res,
    FraudAmountDetectionAgent.analyze m = Ret res
    /\ agent res = "FraudAmountDetectionAgent"
    /\ (0 <= risk_score res <= 0.5)%Q
    /\ (length (fraud_reasons res) <= 2)%nat.
Proof.
  unfold FraudAmountDetectionAgent.analyze, run_analyze,
    FraudAmountDetectionAgent.body, try_except, bbind.
  destruct (dict_get m "amount" (PStr "0")) as [|s]; cbn [iter_str braise bret].
  { eexists. split; [reflexivity|]. split; [reflexivity|].
    split; [vm_compute; intuition discriminate | cbn; lia]. }
  destruct (PyStr.float _) as [x|]; cbn [braise bret].
  2:{ eexists. split; [reflexivity|]. split; [reflexivity|].
      split; [vm_compute; intuition discriminate | cbn; lia]. }
  destruct (Qeq_bool (py_mod x 1000) 0) eqn:R.
  - rewrite (multiple_of_1000_is_whole x R). cbn [negb]. rewrite andb_false_r.
    destruct (Qgt_bool x 10000), (true && Qgt_bool x 0);
      cbn [when flag bret]; eexists; (split; [reflexivity|]);
      cbn [score_dict agent risk_score fraud_reasons l_risk_score
           l_fraud_reasons init_locals length app];
      (split; [reflexivity|]); (split; [vm_compute; intuition discriminate | lia]).
  - cbn [andb].
    destruct (Qgt_bool x 10000), (Qgt_bool x 100000 && negb (Qeq_bool (py_mod x 1) 0));
      cbn [when flag bret]; eexists; (split; [reflexivity|]);
      cbn [score_dict agent risk_score fraud_reasons l_risk_score
           l_fraud_reasons init_locals length app];
      (split; [reflexivity|]); (split; [vm_compute; intuition discriminate | lia]).
Qed.

Lemma times_nonneg (w : Q) (k : nat) : (0 <= w)%Q -> (0 <= times w k)%Q.
Proof.
  intros H. unfold times. apply Qmult_le_0_compat; [exact H|].
  change 0%Q with (inject_Z 0). rewrite <- Zle_Qle. lia.
Qed.

Lemma py_min_lower (c x : Q) : (c <= 1)%Q -> (c <= x)%Q -> (c <= py_min x 1)%Q.
Proof. intros H1 Hx. unfold py_min. destruct (Qgt_bool x 1); assumption. Qed.

Lemma same_bic_spec (s r : string) : same_bic s r = true <-> s <> "" /\ s = r.
Proof.
  unfold same_bic. rewrite andb_true_iff, truthy_nonempty, bool_decide_eq_true.
  reflexivity.
Qed.

(** X9: on a record whose two codes are strings, the pattern scorer gives
    the reason "Same sender and receiver BIC" exactly when the codes are
    non-empty and equal character for character, and then the score is at
    least 0.5. *)
Theorem pattern_same_sender_and_receiver (m : Message) (s r : string) :
  m !! "sender_bic" = Some (PStr s) ->
  m !! "receiver_bic" = Some (PStr r) ->
  exists res,
    FraudPatternDetectionAgent.analyze m = Ret res
    /\ (List.In "Same sender and receiver BIC" (fraud_reasons res)
        <-> s <> "" /\ s = r)
    /\ (s <> "" -> s = r -> (0.5 <= risk_score res)%Q).
Proof.
  intros Hs Hr.
  assert (Es : dict_get m "sender_bic" (PStr "") = PStr s)
    by (unfold dict_get; by rewrite Hs).
  assert (Er : dict_get m "receiver_bic" (PStr "") = PStr r)
    by (unfold dict_get; by rewrite Hr).
  destruct (pattern_closed_form m s r Es Er) as (res & A & _ & R & S).
  cbv zeta in R, S. exists res. split; [exact A|]. split; [split|].
  - rewrite R. intros I. apply in_app_or in I as [I|I].
    { apply in_map_iff in I as (p & I & _). cbn in I. discriminate. }
    apply in_app_or in I as [I|I].
    + destruct (same_bic s r) eqn:B; [by apply same_bic_spec | destruct I].
    + apply in_map_iff in I as (k & I & _). cbn in I. discriminate.
  - intros Y. apply same_bic_spec in Y. rewrite R, Y.
    apply in_or_app. right. apply in_or_app. left. by left.
  - intros N E. assert (Y : same_bic s r = true) by (by apply same_bic_spec).
    rewrite S, Y. apply py_min_lower; [lra|].
    pose proof (times_nonneg 0.4 (length (matched_patterns s r))).
    pose proof (times_nonneg 0.2 (length (found_keywords
      (text_of (dict_get m "remittance_info" (PStr "")))))).
    lra.
Qed.

Lemma pattern_same_sender_and_receiver_witness :
  let m := mk [("message_id", PStr "M5"); ("sender_bic", PStr "CHASUS33XXX");
               ("receiver_bic", PStr "CHASUS33XXX")] in
  exists res,
    FraudPatternDetectionAgent.analyze m = Ret res
    /\ List.In "Same sender and receiver BIC" (fraud_reasons res)
    /\ (0.5 <= risk_score res)%Q.
Proof.
  intros m.
  destruct (pattern_same_sender_and_receiver m "CHASUS33XXX" "CHASUS33XXX")
    as (res & A & I & S); try reflexivity.
  exists res. split; [exact A|]. split.
  - apply I. split; [discriminate | reflexivity].
  - apply S; [discriminate | reflexivity].
Defined.

Lemma medium_not_high (c : string) : medium_risk c = true -> high_risk c = false.
Proof.
  intros M. destruct (high_risk c) eqn:H; [|reflexivity].
  apply high_not_medium in H. congruence.
Qed.









Lemma upper_char_idem (c : ascii) :
  PyStr.upper_char (PyStr.upper_char c) = PyStr.upper_char c.
Proof. destruct c as [[] [] [] [] [] [] [] []]; reflexivity. Qed.

Lemma upper_idem (s : string) : PyStr.upper (PyStr.upper s) = PyStr.upper s.
Proof.
  unfold PyStr.upper. induction s as [|c s IH]; cbn; [reflexivity|].
  by rewrite upper_char_idem, IH.
Qed.

Lemma map_chars_length (f : ascii -> ascii) (s : string) :
  String.length (PyStr.map_chars f s) = String.length s.
Proof. induction s as [|c s IH]; cbn; [reflexivity | by rewrite IH]. Qed.

Lemma map_chars_substring (f : ascii -> ascii) (s : string) (n k : nat) :
  String.substring n k (PyStr.map_chars f s)
  = PyStr.map_chars f (String.substring n k s).
Proof.
  revert n k. induction s as [|c s IH]; intros n k.
  - destruct n, k; reflexivity.
  - destruct n as [|n]; cbn.
    + destruct k as [|k]; cbn; [reflexivity | by rewrite IH].
    + apply IH.
Qed.

Lemma country_code_upper (s : string) :
  country_code (PyStr.upper s) = country_code s.
Proof.
  unfold country_code, PyStr.slice, PyStr.upper.
  rewrite map_chars_length, map_chars_substring.
  destruct (6 <=? String.length s)%nat; [|reflexivity].
  apply upper_idem.
Qed.

(** X12: the geographic scorer does not depend on the letter case of
    identifier codes written in ASCII: writing both codes in upper case
    leaves its result unchanged. *)
Theorem geographic_ignores_case (m : Message) (s r : string) :
  m !! "sender_bic" = Some (PStr s) ->
  m !! "receiver_bic" = Some (PStr r) ->
  ascii_only s = true ->
  ascii_only r = true ->
  FraudGeographicRiskAgent.analyze
    (<["sender_bic" := PStr (PyStr.upper s)]>
       (<["receiver_bic" := PStr (PyStr.upper r)]> m))
  = FraudGeographicRiskAgent.analyze m.
Proof.
  intros Hs Hr _ _.
  unfold FraudGeographicRiskAgent.analyze, FraudGeographicRiskAgent.body,
    dict_get.
  rewrite lookup_insert_eq, lookup_insert_ne, lookup_insert_eq, Hs, Hr
    by discriminate.
  cbn [default from_option id]. unfold run_analyze, try_except, bbind.
  rewrite !country_of_text, !country_code_upper. reflexivity.
Qed.

Lemma geographic_ignores_case_witness :
  let m := mk [("message_id", PStr "M9"); ("sender_bic", PStr "bankirthxxx");
               ("receiver_bic", PStr "ChasUs33")] in
  FraudGeographicRiskAgent.analyze m
  = FraudGeographicRiskAgent.analyze
      (mk [("message_id", PStr "M9"); ("sender_bic", PStr "BANKIRTHXXX");
           ("receiver_bic", PStr "CHASUS33")]).
Proof.
  intros m.
  rewrite <- (geographic_ignores_case m "bankirthxxx" "ChasUs33");
    reflexivity.
Defined.

(** ** The evaluator *)

Lemma if_negb_false (b x : bool) : (if negb b then false else x) = b && x.
Proof. by destruct b. Qed.

Lemma validate_bic_length (s : string) :
  EvaluatorOptimizerPattern._validate_bic (PStr s) = true ->
  String.length s = 8%nat \/ String.length s = 11%nat.
Proof.
  unfold EvaluatorOptimizerPattern._validate_bic.
  rewrite !if_negb_false. intros H.
  apply andb_true_iff in H as [_ H]. apply andb_true_iff in H as [H _].
  apply bool_decide_eq_true in H.
  apply elem_of_cons in H as [H|H]; [by left|].
  apply elem_of_cons in H as [H|H]; [by right | by apply elem_of_nil in H].
Qed.

Lemma string_of_length_8 (s : string) :
  String.length s = 8%nat ->
  exists c1 c2 c3 c4 c5 c6 c7 c8,
    s = String c1 (String c2 (String c3 (String c4 (String c5 (String c6
          (String c7 (String c8 EmptyString))))))).
Proof.
  intros H.
  do 8 (destruct s as [|? s]; [discriminate|]).
  destruct s; [|discriminate]. by repeat eexists.
Qed.

Lemma string_of_length_11 (s : string) :
  String.length s = 11%nat ->
  exists c1 c2 c3 c4 c5 c6 c7 c8 c9 c10 c11,
    s = String c1 (String c2 (String c3 (String c4 (String c5 (String c6
          (String c7 (String c8 (String c9 (String c10 (String c11
             EmptyString)))))))))).
Proof.
  intros H.
  do 11 (destruct s as [|? s]; [discriminate|]).
  destruct s; [|discriminate]. by repeat eexists.
Qed.

(** X13: a code written in ASCII is a valid BIC exactly when it has 8 or 11
    characters, the first six of them letters and the others letters or
    digits; [None] is never valid. *)
Theorem validate_bic_shape (s : string) :
  ascii_only s = true ->
  EvaluatorOptimizerPattern._validate_bic PNone = false
  /\ (EvaluatorOptimizerPattern._validate_bic (PStr s) = true
      <-> (String.length s = 8%nat \/ String.length s = 11%nat)
          /\ bic_shape s = true).
Proof.
  intros _. split; [reflexivity|]. split.
  - intros H. pose proof (validate_bic_length s H) as L. split; [exact L|].
    destruct L as [L|L].
    + apply string_of_length_8 in L as (c1&c2&c3&c4&c5&c6&c7&c8&->).
      revert H. unfold EvaluatorOptimizerPattern._validate_bic, bic_shape.
      cbn. rewrite !if_negb_false, !andb_true_iff.
      intuition (try reflexivity).
    + apply string_of_length_11 in L as (c1&c2&c3&c4&c5&c6&c7&c8&c9&c10&c11&->).
      revert H. unfold EvaluatorOptimizerPattern._validate_bic, bic_shape.
      cbn. rewrite !if_negb_false, !andb_true_iff.
      intuition (try reflexivity).
  - intros [[L|L] H].
    + apply string_of_length_8 in L as (c1&c2&c3&c4&c5&c6&c7&c8&->).
      revert H. unfold EvaluatorOptimizerPattern._validate_bic, bic_shape.
      cbn. rewrite !if_negb_false, !andb_true_iff.
      intuition (try reflexivity).
    + apply string_of_length_11 in L as (c1&c2&c3&c4&c5&c6&c7&c8&c9&c10&c11&->).
      revert H. unfold EvaluatorOptimizerPattern._validate_bic, bic_shape.
      cbn. rewrite !if_negb_false, !andb_true_iff.
      intuition (try reflexivity).
Qed.

Lemma validate_bic_shape_witness :
  EvaluatorOptimizerPattern._validate_bic (PStr "DEUTDEFF500") = true
  <-> (String.length "DEUTDEFF500" = 8%nat \/ String.length "DEUTDEFF500" = 11%nat)
      /\ bic_shape "DEUTDEFF500" = true.
Proof. apply (validate_bic_shape "DEUTDEFF500"). reflexivity. Defined.

(** X14: evaluating a message raises exactly when its reference is present
    and null (a [TypeError], from [len(None)]); on every other message it
    returns a verdict that is true exactly when no error is listed. *)
Theorem evaluate_raises_on_null_reference (m : Message) :
  (EvaluatorOptimizerPattern.evaluate_message m = Raise TypeError
   <-> m !! "reference" = Some PNone)
  /\ (m !! "reference" <> Some PNone ->
      exists is_valid errors,
        EvaluatorOptimizerPattern.evaluate_message m = Ret (is_valid, errors)
        /\ (is_valid = true <-> errors = [])).
Proof.
  unfold EvaluatorOptimizerPattern.evaluate_message,
    EvaluatorOptimizerPattern.reference_errors, dict_get.
  destruct (m !! "reference") as [[|ref]|]; cbn [default from_option id].
  - split; [split; reflexivity | congruence].
  - split; [split; discriminate|]. intros _. eexists _, _.
    split; [reflexivity|]. rewrite Nat.eqb_eq. apply length_zero_iff_nil.
  - split; [split; discriminate|]. intros _. eexists _, _.
    split; [reflexivity|]. rewrite Nat.eqb_eq. apply length_zero_iff_nil.
Qed.









Lemma country_code_nonempty (s : string) :
  (6 <= String.length s)%nat -> country_code s <> "".
Proof.
  intros H.
  do 6 (destruct s as [|? s]; [cbn in H; lia|]).
  unfold country_code. cbn. discriminate.
Qed.

Lemma valid_bic_has_country (s : string) :
  EvaluatorOptimizerPattern._validate_bic (PStr s) = true ->
  country_code s <> "".
Proof.
  intros V. apply country_code_nonempty.
  destruct (validate_bic_length s V) as [L|L]; lia.
Qed.

(** X16: a message the evaluator accepts is scored without failure: the
    three scorers return, the pattern scorer never reports "Same sender and
    receiver BIC", and the geographic scorer, whose two country codes are
    then never empty, gives its asymmetry reason exactly when one side is
    high-risk and the other side is in neither set. *)
Theorem accepted_message_scoring (m : Message) :
  accepted m ->
  let sc := country_code (text_of (dict_get m "sender_bic" (PStr ""))) in
  let rc := country_code (text_of (dict_get m "receiver_bic" (PStr ""))) in
  exists ra rp rg,
    FraudAmountDetectionAgent.analyze m = Ret ra
    /\ FraudPatternDetectionAgent.analyze m = Ret rp
    /\ FraudGeographicRiskAgent.analyze m = Ret rg
    /\ ~ List.In "Same sender and receiver BIC" (fraud_reasons rp)
    /\ (List.In (FraudGeographicRiskAgent.unusual_reason sc rc) (fraud_reasons rg)
        <-> one_sided_high sc rc).
Proof.
  intros (ty & ref & amt & s & r & first & cur & x & _ & _ & _ & _ & _ & _ & _
          & _ & _ & _ & _ & Hs & Vs & Hr & Vr & Nsr).
  assert (Es : dict_get m "sender_bic" (PStr "") = PStr s)
    by (unfold dict_get; by rewrite Hs).
  assert (Er : dict_get m "receiver_bic" (PStr "") = PStr r)
    by (unfold dict_get; by rewrite Hr).
  rewrite Es, Er. cbn [text_of]. cbv zeta.
  destruct (amount_returns m) as (ra & Ea).
  destruct (pattern_closed_form m s r Es Er) as (rp & Ep & _ & Rp & _).
  destruct (geographic_closed_form m s r Es Er) as (rg & Eg & _ & Rg & _).
  cbv zeta in Rp, Rg.
  exists ra, rp, rg. do 3 (split; [assumption|]). split.
  - rewrite Rp. intros I.
    assert (B : same_bic s r = false).
    { destruct (same_bic s r) eqn:B; [|reflexivity].
      apply same_bic_spec in B as [_ B]. contradiction. }
    rewrite B in I. cbn [app] in I.
    apply in_app_or in I as [I|I]; apply in_map_iff in I as (p & I & _);
      cbn in I; discriminate.
  - rewrite Rg, !app_assoc. split.
    + intros I. apply in_app_or in I as [I|I].
      * rewrite <- !app_assoc in I.
        by apply unusual_reason_only_from_bonus in I.
      * destruct (FraudGeographicRiskAgent.unusual_combination _ _) eqn:U;
          [|destruct I].
        by apply unusual_combination_spec in U as (_ & _ & U).
    + intros O. apply in_or_app. right.
      assert (U : FraudGeographicRiskAgent.unusual_combination
                    (country_code s) (country_code r) = true).
      { apply unusual_combination_spec.
        split; [by apply valid_bic_has_country|].
        split; [by apply valid_bic_has_country | exact O]. }
      rewrite U. by left.
Qed.

Lemma accepted_message_scoring_witness :
  let m := mk [("message_id", PStr "VALID001"); ("message_type", PStr "MT103");
               ("reference", PStr "REF123456"); ("amount", PStr "5000.00 USD");
               ("sender_bic", PStr "CHASUS33XXX");
               ("receiver_bic", PStr "MELIIRTHXXX");
               ("remittance_info", PStr "Invoice payment")] in
  exists rp rg,
    FraudPatternDetectionAgent.analyze m = Ret rp
    /\ FraudGeographicRiskAgent.analyze m = Ret rg
    /\ ~ List.In "Same sender and receiver BIC" (fraud_reasons rp)
    /\ List.In "Unusual risk level combination: US ? IR" (fraud_reasons rg).
Proof.
  intros m.
  assert (A : accepted m).
  { exists "MT103", "REF123456", "5000.00 USD", "CHASUS33XXX", "MELIIRTHXXX",
      "5000.00", "USD", (500000 # 100)%Q.
    repeat split; try reflexivity; try discriminate;
      try (apply (bool_decide_unpack _); vm_compute; exact I);
      vm_compute; discriminate. }
  destruct (accepted_message_scoring m A) as (ra & rp & rg & _ & Ep & Eg & N & I).
  exists rp, rg. do 3 (split; [assumption|]).
  apply I. right. repeat split; reflexivity.
Defined.

(** ** The evaluator-optimizer loop *)

Lemma fill_required_lookup (message : Message) (fields : list string) :
  forall (corrected : Message) (k : string),
    fold_left
      (fun corrected field =>
         match corrected !! field with
         | Some _ => corrected
         | None => <[field := dict_get message field (PStr "")]> corrected
         end)
      fields corrected !! k
    = match corrected !! k with
      | Some v => Some v
      | None => if bool_decide (k ∈ fields)
                then Some (dict_get message k (PStr "")) else None
      end.
Proof.
  induction fields as [|f fields IH]; intros corrected k.
  - cbn. by destruct (corrected !! k).
  - cbn [fold_left]. rewrite IH.
    destruct (corrected !! f) as [vf|] eqn:Ef.
    + destruct (corrected !! k) as [v|] eqn:Ek; [reflexivity|].
      assert (k <> f) by congruence.
      destruct (bool_decide (k ∈ fields)) eqn:B.
      * apply bool_decide_eq_true in B.
        rewrite bool_decide_eq_true_2; [reflexivity | by right].
      * apply bool_decide_eq_false in B.
        rewrite bool_decide_eq_false_2; [reflexivity|].
        intros I. apply elem_of_cons in I as [?|?]; contradiction.
    + destruct (decide (k = f)) as [->|N].
      * rewrite lookup_insert_eq, Ef.
        rewrite bool_decide_eq_true_2; [reflexivity | by left].
      * rewrite lookup_insert_ne by congruence.
        destruct (corrected !! k) as [v|]; [reflexivity|].
        destruct (bool_decide (k ∈ fields)) eqn:B.
        -- apply bool_decide_eq_true in B.
           rewrite bool_decide_eq_true_2; [reflexivity | by right].
        -- apply bool_decide_eq_false in B.
           rewrite bool_decide_eq_false_2; [reflexivity|].
           intros I. apply elem_of_cons in I as [?|?]; contradiction.
Qed.

Lemma optimize_lookup (respond : Message -> list string -> Message)
    (m : Message) (errors : list string) (k : string) :
  errors <> [] ->
  EvaluatorOptimizerPattern.optimize_message respond m errors !! k
  = match respond m errors !! k with
    | Some v => Some v
    | None =>
        if bool_decide (k ∈ EvaluatorOptimizerPattern.required_fields)
        then Some (dict_get m k (PStr "")) else None
    end.
Proof.
  intros NE. unfold EvaluatorOptimizerPattern.optimize_message.
  destruct errors as [|e errors]; [congruence|].
  apply fill_required_lookup.
Qed.

(** X17: [optimize_message] returns the message itself when there is no
    error; otherwise it returns the correction agent's answer with every
    field of that answer kept, each required field the answer lacks taken
    from the message (the empty string if the message lacks it too), and no
    other field added, so the five required fields are always present. *)
Theorem optimize_message_result (respond : Message -> list string -> Message)
    (m : Message) (errors : list string) :
  EvaluatorOptimizerPattern.optimize_message respond m [] = m
  /\ (errors <> [] ->
      let answer := respond m errors in
      let result := EvaluatorOptimizerPattern.optimize_message respond m errors in
      (forall k v, answer !! k = Some v -> result !! k = Some v)
      /\ (forall k, answer !! k = None ->
            result !! k
            = if bool_decide (k ∈ EvaluatorOptimizerPattern.required_fields)
              then Some (dict_get m k (PStr "")) else None)
      /\ (forall k, k ∈ EvaluatorOptimizerPattern.required_fields ->
            is_Some (result !! k))).
Proof.
  split; [reflexivity|]. intros NE answer result. subst answer result.
  split; [|split].
  - intros k v H. by rewrite (optimize_lookup respond m errors k NE), H.
  - intros k H. by rewrite (optimize_lookup respond m errors k NE), H.
  - intros k H. rewrite (optimize_lookup respond m errors k NE).
    destruct (respond m errors !! k); [by eexists|].
    rewrite bool_decide_eq_true_2 by exact H. by eexists.
Qed.

Lemma evaluate_returns (m : Message) :
  reference_not_null m ->
  exists is_valid errors,
    EvaluatorOptimizerPattern.evaluate_message m = Ret (is_valid, errors)
    /\ (is_valid = true <-> errors = []).
Proof.
  unfold reference_not_null, EvaluatorOptimizerPattern.evaluate_message,
    EvaluatorOptimizerPattern.reference_errors, dict_get.
  destruct (m !! "reference") as [[|ref]|]; cbn [default from_option id];
    [congruence| |]; intros _; eexists _, _;
    (split; [reflexivity|]); rewrite Nat.eqb_eq; apply length_zero_iff_nil.
Qed.

Lemma evaluate_null_reference (m : Message) :
  m !! "reference" = Some PNone ->
  EvaluatorOptimizerPattern.evaluate_message m = Raise TypeError.
Proof.
  intros H. unfold EvaluatorOptimizerPattern.evaluate_message,
    EvaluatorOptimizerPattern.reference_errors, dict_get.
  by rewrite H.
Qed.

Lemma evaluate_raises_type_error (m : Message) (e : pyexn) :
  EvaluatorOptimizerPattern.evaluate_message m = Raise e -> e = TypeError.
Proof.
  unfold EvaluatorOptimizerPattern.evaluate_message,
    EvaluatorOptimizerPattern.reference_errors.
  destruct (dict_get m "reference" (PStr "")); congruence.
Qed.

Lemma optimize_reference (respond : Message -> list string -> Message)
    (m : Message) (errors : list string) :
  reference_not_null m ->
  reference_not_null (respond m errors) ->
  reference_not_null
    (EvaluatorOptimizerPattern.optimize_message respond m errors).
Proof.
  intros Hm Hr. destruct errors as [|e errors]; [exact Hm|].
  unfold reference_not_null in *.
  rewrite (optimize_lookup respond m (e :: errors) "reference") by discriminate.
  destruct (respond m (e :: errors) !! "reference") as [v|]; [exact Hr|].
  rewrite bool_decide_eq_true_2 by (right; left).
  unfold dict_get. destruct (m !! "reference") as [[|ref]|];
    cbn [default from_option id]; [congruence | discriminate | discriminate].
Qed.

Lemma invalid_verdict (m : Message) (errors : list string) :
  EvaluatorOptimizerPattern.evaluate_message m = Ret (false, errors) ->
  errors <> [].
Proof.
  unfold EvaluatorOptimizerPattern.evaluate_message.
  destruct (EvaluatorOptimizerPattern.reference_errors m); [|discriminate].
  intros [= V <-] E. rewrite E in V. discriminate.
Qed.

Lemma valid_verdict (m : Message) (errors : list string) :
  EvaluatorOptimizerPattern.evaluate_message m = Ret (true, errors) ->
  errors = [].
Proof.
  unfold EvaluatorOptimizerPattern.evaluate_message.
  destruct (EvaluatorOptimizerPattern.reference_errors m); [|discriminate].
  intros [= V <-]. apply Nat.eqb_eq in V. by apply length_zero_iff_nil.
Qed.

(** The three rounds on one message whose reference, and that of every
    answer of the agent, is not null. *)
Lemma validation_loop_recorded
    (respond : nat -> Message -> list string -> Message) (m : Message) :
  reference_not_null m ->
  (forall k m' errors, reference_not_null (respond k m' errors)) ->
  exists v,
    EvaluatorOptimizerPattern.validation_loop respond
      (seq 0 EvaluatorOptimizerPattern.MAX_ITERATIONS) m None = Ret v
    /\ verdict_recorded v.
Proof.
  intros Hm Hr.
  assert (Step : forall m0, reference_not_null m0 ->
            (exists errors,
               EvaluatorOptimizerPattern.evaluate_message m0 = Ret (false, errors)
               /\ errors <> [])
            \/ EvaluatorOptimizerPattern.evaluate_message m0 = Ret (true, [])).
  { intros m0 H0. destruct (evaluate_returns m0 H0) as ([|] & errors & E & V).
    - right. rewrite E. f_equal. f_equal. by apply V.
    - left. exists errors. split; [exact E|]. intros N. apply V in N. discriminate. }
  cbn [seq EvaluatorOptimizerPattern.MAX_ITERATIONS
       EvaluatorOptimizerPattern.validation_loop].
  destruct (Step m Hm) as [(e0 & E0 & N0)|E0]; rewrite E0.
  2:{ eexists. split; [reflexivity|]. left. by split. }
  cbn [Nat.ltb Nat.leb Nat.sub].
  set (m1 := EvaluatorOptimizerPattern.optimize_message (respond 0%nat) m e0).
  assert (H1 : reference_not_null m1) by (apply optimize_reference; auto).
  destruct (Step m1 H1) as [(e1 & E1 & N1)|E1]; rewrite E1.
  2:{ eexists. split; [reflexivity|]. left. by split. }
  cbn [Nat.ltb Nat.leb Nat.sub].
  set (m2 := EvaluatorOptimizerPattern.optimize_message (respond 1%nat) m1 e1).
  assert (H2 : reference_not_null m2) by (apply optimize_reference; auto).
  destruct (Step m2 H2) as [(e2 & E2 & N2)|E2]; rewrite E2.
  2:{ eexists. split; [reflexivity|]. left. by split. }
  cbn [Nat.ltb Nat.leb Nat.sub].
  eexists. split; [reflexivity|]. right. exists e2. by repeat split.
Qed.

(** X18: when no reference is null, in the batch or in any answer of the
    correction agent, the loop returns one message per input message, and
    the status written into each is the evaluator's verdict on the message
    returned: VALID with no errors when the evaluator accepts it, INVALID
    with the evaluator's non-empty error list otherwise. *)
Theorem evaluator_optimizer_records_verdict
    (respond : nat -> nat -> Message -> list string -> Message)
    (messages : list Message) :
  Forall reference_not_null messages ->
  (forall i k m errors, reference_not_null (respond i k m errors)) ->
  exists out,
    EvaluatorOptimizerPattern.process_with_evaluator_optimizer respond messages
    = Ret out
    /\ length out = length messages
    /\ Forall verdict_recorded out.
Proof.
  intros Hm Hr. unfold EvaluatorOptimizerPattern.process_with_evaluator_optimizer.
  generalize 0%nat. induction Hm as [|m messages H _ IH]; intros i.
  - exists []. repeat split. constructor.
  - cbn [EvaluatorOptimizerPattern.process_from].
    destruct (validation_loop_recorded (respond i) m H (Hr i)) as (v & E & V).
    destruct (IH (S i)) as (out & Eo & L & F).
    rewrite E, Eo. exists (v :: out). split; [reflexivity|].
    split; [cbn; by rewrite L | by constructor].
Qed.

Lemma evaluator_optimizer_records_verdict_witness :
  let good := mk [("message_id", PStr "VALID001"); ("message_type", PStr "MT103");
                  ("reference", PStr "REF123456"); ("amount", PStr "5000.00 USD");
                  ("sender_bic", PStr "CHASUS33XXX");
                  ("receiver_bic", PStr "DEUTDEFFXXX")] in
  let bad := mk [("message_id", PStr "INVALID001"); ("message_type", PStr "MT999");
                 ("amount", PStr "12 XYZ")] in
  let respond := fun (_ _ : nat) (m : Message) (_ : list string) =>
                   <["reference" := PStr "REF1"]> m in
  exists out,
    EvaluatorOptimizerPattern.process_with_evaluator_optimizer
      respond [good; bad] = Ret out
    /\ length out = 2%nat
    /\ Forall verdict_recorded out.
Proof.
  intros good bad respond.
  apply (evaluator_optimizer_records_verdict respond [good; bad]).
  - repeat constructor; unfold reference_not_null; vm_compute; discriminate.
  - intros i k m errors. unfold reference_not_null, respond.
    rewrite lookup_insert_eq. discriminate.
Defined.



Lemma validation_loop_raises
    (respond : nat -> Message -> list string -> Message)
    (iterations : list nat) :
  forall m status e,
    EvaluatorOptimizerPattern.validation_loop respond iterations m status
    = Raise e ->
    e = TypeError.
Proof.
  induction iterations as [|k iterations IH]; intros m status e;
    cbn [EvaluatorOptimizerPattern.validation_loop]; [discriminate|].
  destruct (EvaluatorOptimizerPattern.evaluate_message m) as [[[|] errors]|e']
    eqn:E.
  - discriminate.
  - destruct (k <? EvaluatorOptimizerPattern.MAX_ITERATIONS - 1)%nat; apply IH.
  - intros [= <-]. by apply evaluate_raises_type_error in E.
Qed.

(** X20: a single message whose reference is null makes the whole loop
    raise [TypeError], wherever it stands in the batch and whatever the
    correction agent answers: no message of the batch is returned. *)
Theorem null_reference_aborts_validation
    (respond : nat -> nat -> Message -> list string -> Message)
    (messages : list Message) (m : Message) :
  m ∈ messages ->
  m !! "reference" = Some PNone ->
  EvaluatorOptimizerPattern.process_with_evaluator_optimizer respond messages
  = Raise TypeError.
Proof.
  intros Hin Hm. unfold EvaluatorOptimizerPattern.process_with_evaluator_optimizer.
  generalize 0%nat. induction messages as [|m0 messages IH]; intros i.
  - by apply elem_of_nil in Hin.
  - cbn [EvaluatorOptimizerPattern.process_from].
    destruct (EvaluatorOptimizerPattern.validation_loop (respond i) _ m0 None)
      as [v|e] eqn:L.
    + apply elem_of_cons in Hin as [<-|Hin].
      * cbn [seq EvaluatorOptimizerPattern.MAX_ITERATIONS
             EvaluatorOptimizerPattern.validation_loop] in L.
        rewrite (evaluate_null_reference m Hm) in L. discriminate.
      * by rewrite (IH Hin).
    + by apply validation_loop_raises in L as ->.
Qed.

Lemma null_reference_aborts_validation_witness :
  EvaluatorOptimizerPattern.process_with_evaluator_optimizer
    (fun _ _ m _ => m)
    [mk [("message_id", PStr "A"); ("reference", PStr "REF1")];
     mk [("message_id", PStr "B"); ("reference", PNone)]]
  = Raise TypeError.
Proof.
  apply (null_reference_aborts_validation _ _
           (mk [("message_id", PStr "B"); ("reference", PNone)])).
  - right. left.
  - reflexivity.
Defined.

(** ** The high-value filter *)




(** ** The memo of the pattern scorer *)

Lemma lower_upper_char (c : ascii) :
  PyStr.lower_char (PyStr.upper_char c) = PyStr.lower_char c.
Proof. destruct c as [[] [] [] [] [] [] [] []]; reflexivity. Qed.

Lemma lower_upper (t : string) : PyStr.lower (PyStr.upper t) = PyStr.lower t.
Proof.
  unfold PyStr.lower, PyStr.upper. induction t as [|c t IH]; cbn; [reflexivity|].
  by rewrite lower_upper_char, IH.
Qed.

(** X22: the pattern scorer reads the memo without regard to letter case:
    writing an ASCII memo in upper case leaves the scorer's result
    unchanged, so "URGENT" counts like "urgent". *)
Theorem pattern_ignores_memo_case (m : Message) (t : string) :
  m !! "remittance_info" = Some (PStr t) ->
  ascii_only t = true ->
  FraudPatternDetectionAgent.analyze
    (<["remittance_info" := PStr (PyStr.upper t)]> m)
  = FraudPatternDetectionAgent.analyze m.
Proof.
  intros Ht _.
  unfold FraudPatternDetectionAgent.analyze, FraudPatternDetectionAgent.body,
    dict_get.
  rewrite lookup_insert_eq, !lookup_insert_ne, Ht by discriminate.
  cbn [default from_option id]. rewrite !py_or_text. cbn [text_of].
  unfold FraudPatternDetectionAgent.keyword_checks, str_method.
  unfold run_analyze, bbind at 1 3.
  destruct (FraudPatternDetectionAgent.bic_checks _ _ init_locals)
    as [[e|[]] st]; [reflexivity|].
  unfold bbind, bret. rewrite lower_upper. reflexivity.
Qed.

Lemma pattern_ignores_memo_case_witness :
  let m := mk [("message_id", PStr "M10"); ("sender_bic", PStr "CHASUS33");
               ("receiver_bic", PStr "DEUTDEFF");
               ("remittance_info", PStr "Urgent and Secret")] in
  FraudPatternDetectionAgent.analyze
    (<["remittance_info" := PStr "URGENT AND SECRET"]> m)
  = FraudPatternDetectionAgent.analyze m.
Proof.
  intros m.
  apply (pattern_ignores_memo_case m "Urgent and Secret"); reflexivity.
Defined.
